(** * Agricultural data dashboard: selection and aggregation engine

    A shallow embedding of [agricultural_analysis_app.py].  Data frames are
    lists of row records in file order.  The sections of the page read the
    [Value] column as float64, held as Rocq's primitive binary64 floats; a
    missing value is pandas' NaN.  The pandas operations the app calls
    ([isin], boolean-mask selection, [groupby(...).agg], [sort_values],
    [iloc], [to_numeric]) are written out as list functions in
    [Module Pandas]; what pandas and numpy compute by algorithms of their
    own (casing of text, text and number conversion, the order left among
    equal sort keys, the rounding of sums) is the interface [Library], over
    which the app is stated.  The app's own functions follow in
    [Module App] under the names they have in the source. *)

From Stdlib Require Import ZArith List String Ascii Bool Lia Floats.
From Stdlib Require Uint63.
From Stdlib Require Import Sorting.Sorted Sorting.Permutation DecimalString.
Import ListNotations.

Set Implicit Arguments.

(** ** The order of binary64 values

    [sort_values] and the [min]/[max] aggregates compare floats.  The
    comparison of two non-NaN floats is the lexicographic comparison of an
    integer key, from which the order laws are derived further down. *)
Module FloatOrder.

Definition key3 : Type := Z * Z * Z.

Definition lex3 (a b : key3) : comparison :=
  let '(a1, a2, a3) := a in
  let '(b1, b2, b3) := b in
  match Z.compare a1 b1 with
  | Eq => match Z.compare a2 b2 with
          | Eq => Z.compare a3 b3
          | c => c
          end
  | c => c
  end.

Definition SFkey (f : spec_float) : option key3 :=
  match f with
  | S754_nan => None
  | S754_infinity true => Some (-2, 0, 0)%Z
  | S754_infinity false => Some (2, 0, 0)%Z
  | S754_zero _ => Some (0, 0, 0)%Z
  | S754_finite true m e => Some (-1, - e, Z.neg m)%Z
  | S754_finite false m e => Some (1, e, Z.pos m)%Z
  end.

Definition fkey (x : float) : option key3 := SFkey (Prim2SF x).

End FloatOrder.

(** ** pandas

    The pandas calls of the app, as functions on columns (lists of cells)
    and frames (lists of rows). *)
Module Pandas.

(** A number of a numeric column: an int64 or a float64. *)
Inductive number : Type :=
| Int (z : Z)
| Float (f : float).

(** A cell of a column as [read_csv] hands it over: text (dtype object) or
    a number (an empty cell is the float NaN). *)
Inductive cell : Type :=
| Text (s : string)
| Number (n : number).

(** What pandas and numpy compute by their own algorithms:
    - [title s]: [str.title] of the text [s];
    - [parse_number s]: the number that [to_numeric] reads in the text
      [s], an [Int] for an integer literal and a [Float] otherwise, or
      [None] when [s] is not a number;
    - [repr_number n]: the text of the number [n], as [astype(str)] gives;
    - [tie_rank keys i]: the place the default sort gives to position [i]
      among the positions of [keys] with an equal key (it depends on the
      key array only; pandas promises no particular order there);
    - [mean_of vs], [std_of vs]: the [groupby] mean of the one or more
      values [vs], and their sample standard deviation ([ddof=1]) when
      they are two or more;
    - [series_mean_of vs]: [Series.mean] of the one or more values [vs]. *)
Class Library : Type := {
  title : string -> string;
  parse_number : string -> option number;
  repr_number : number -> string;
  tie_rank : list float -> nat -> nat;
  mean_of : list float -> float;
  std_of : list float -> float;
  series_mean_of : list float -> float
}.

(** [Series.isna]: NaN is the missing value of a float64 column. *)
Definition isna (v : float) : bool := is_nan v.

(** [Series.isin(values)] on a text column. *)
Definition isin (s : string) (values : list string) : bool :=
  existsb (String.eqb s) values.

(** [Series.str.replace(old, '')] for a one-character [old]. *)
Fixpoint str_remove (old : ascii) (s : string) : string :=
  match s with
  | EmptyString => EmptyString
  | String c s' =>
      if Ascii.eqb c old then str_remove old s'
      else String c (str_remove old s')
  end.

(** *** Numbers *)

(** The float64 nearest to an integer (ties to even). *)
Definition float_of_Z (z : Z) : float :=
  SF2Prim (binary_normalize prec emax z 0 false).

(** A number read as float64, as pandas does when an int64 meets a
    float64. *)
Definition float_value (n : number) : float :=
  match n with
  | Int z => float_of_Z z
  | Float f => f
  end.

Definition number_isna (n : number) : bool :=
  match n with
  | Int _ => false
  | Float f => isna f
  end.

Definition number_is_finite (n : number) : bool :=
  match n with
  | Int _ => true
  | Float f => is_finite f
  end.

(** *** [pd.to_numeric(column, errors=...)] and [Series.astype(str)] *)

Inductive errors_mode : Type :=
| errors_raise
| errors_coerce.

(** A cell that was read, or not, as a number: an int64 column results
    when every cell was read as an [Int]. *)
Definition read_as_int (o : option number) : bool :=
  match o with
  | Some (Int _) => true
  | _ => false
  end.

Definition read_at_all (o : option number) : bool :=
  match o with
  | Some _ => true
  | None => false
  end.

(** The cell in an int64 column, and in a float64 column, where a cell
    that is not a number is coerced to NaN. *)
Definition int_cell (o : option number) : number :=
  match o with
  | Some n => n
  | None => Float nan
  end.

Definition float_cell (o : option number) : number :=
  match o with
  | Some n => Float (float_value n)
  | None => Float nan
  end.

Section Conversions.

Context {lib : Library}.

Definition astype_str (c : cell) : string :=
  match c with
  | Text s => s
  | Number n => repr_number n
  end.

(** One cell read as a number: a number is itself, a text is parsed. *)
Definition cell_number (c : cell) : option number :=
  match c with
  | Number n => Some n
  | Text s => parse_number s
  end.

(** The dtype is chosen for the whole column: int64 when every cell is an
    integer, float64 otherwise.  A cell that is not a number raises
    ([None]) under [errors='raise'] and becomes NaN under
    [errors='coerce']. *)
Definition to_numeric (column : list cell) (errors : errors_mode)
    : option (list number) :=
  let read := map cell_number column in
  if forallb read_as_int read then Some (map int_cell read)
  else
    match errors with
    | errors_raise =>
        if forallb read_at_all read then Some (map float_cell read)
        else None
    | errors_coerce => Some (map float_cell read)
    end.

End Conversions.

(** *** Aggregates ([skipna=True])

    Missing values are skipped.  A group without any value has a missing
    mean, minimum and maximum; the sample standard deviation ([ddof=1]) is
    missing as soon as the count of values does not exceed one.  The
    arithmetic on the values present is the library's. *)

Definition dropna (l : list float) : list float :=
  filter (fun v => negb (isna v)) l.

Definition fmin (l : list float) : float :=
  match dropna l with
  | [] => nan
  | v :: vs => fold_left (fun m x => if (x <? m)%float then x else m) vs v
  end.

Definition fmax (l : list float) : float :=
  match dropna l with
  | [] => nan
  | v :: vs => fold_left (fun m x => if (m <? x)%float then x else m) vs v
  end.

Section Aggregates.

Context {lib : Library}.

(** The [groupby] aggregate ['mean']. *)
Definition mean (l : list float) : float :=
  match dropna l with
  | [] => nan
  | vs => mean_of vs
  end.

(** The [groupby] aggregate ['std']: pandas sets it to NaN when the count
    of values is at most [ddof = 1]. *)
Definition std (l : list float) : float :=
  let vs := dropna l in
  if (List.length vs <=? 1)%nat then nan else std_of vs.

(** [Series.mean()]. *)
Definition series_mean (l : list float) : float :=
  match dropna l with
  | [] => nan
  | vs => series_mean_of vs
  end.

End Aggregates.

(** [round(0)]: to the nearest integer, halves to even; values of
    magnitude 2^52 and above are integers already. *)
Definition two52 : float := 4503599627370496%float.

Definition round0 (x : float) : float :=
  let a := abs x in
  if (a <? two52)%float then
    let r := ((a + two52) - two52)%float in
    if get_sign x then (- r)%float else r
  else x.

(** *** Group keys: [groupby] lists the distinct keys in sorted order. *)

Fixpoint insert_key (k : string) (l : list string) : list string :=
  match l with
  | [] => [k]
  | h :: t => if String.leb k h then k :: l else h :: insert_key k t
  end.

Definition sort_keys (l : list string) : list string :=
  fold_right insert_key [] l.

Definition group_keys (l : list string) : list string :=
  sort_keys (nodup string_dec l).

(** [df.groupby(key)[val].agg(...)]: one output row per distinct key. *)
Definition groupby_agg {R B : Type} (key : R -> string) (val : R -> float)
    (agg : list float -> B) (df : list R) : list (string * B) :=
  map (fun k => (k, agg (map val (filter (fun r => String.eqb (key r) k) df))))
      (group_keys (map key df)).

(** *** [sort_values(by, ascending=False)]

    Rows with a NaN key go last ([na_position='last']), in their order; the
    other rows are ordered by decreasing key.  Only the key column is
    looked at.  The default sort (quicksort) promises no order among rows
    with equal keys: each row carries the place [tie_rank] gives to its
    position, and rows with equal keys come out by increasing place (rows
    with equal keys and equal places in the order they had). *)
Section SortValues.

Context {lib : Library}.
Variable R : Type.
Variable by_ : R -> float.

(** [x] has to come after [h]: its key is smaller, or the keys are equal
    and its place is larger. *)
Definition goes_after (x h : nat * R) : bool :=
  (by_ (snd x) <? by_ (snd h))%float
  || ((by_ (snd x) =? by_ (snd h))%float && (fst h <? fst x)%nat).

Fixpoint insert_desc (x : nat * R) (l : list (nat * R)) : list (nat * R) :=
  match l with
  | [] => [x]
  | h :: t => if goes_after x h then h :: insert_desc x t else x :: l
  end.

(** The rows with the place of each among equal keys. *)
Definition ranked (l : list R) : list (nat * R) :=
  combine (map (tie_rank (map by_ l)) (seq 0 (List.length l))) l.

Definition sort_desc (l : list R) : list R :=
  map snd (fold_right insert_desc [] (ranked l)).

Definition sort_values_desc (df : list R) : list R :=
  sort_desc (filter (fun r => negb (isna (by_ r))) df)
  ++ filter (fun r => isna (by_ r)) df.

End SortValues.

(** [Series.max] of an integer column; [None] on an empty column. *)
Definition series_max (l : list Z) : option Z :=
  match l with
  | [] => None
  | z :: zs => Some (fold_left Z.max zs z)
  end.

(** [Series.iloc[0]]; [None] stands for the IndexError on an empty one. *)
Definition iloc0 {A : Type} (l : list A) : option A := hd_error l.

End Pandas.

(** ** plotly

    A figure is kept as the description the app gives of it: the constructor
    used ([px.line], [px.area], [px.bar]), the frame and columns it plots,
    and what [update_layout], [add_hline] and [update_traces] set. *)
Module Plotly.

Inductive chart_kind : Type := Line | Area | Bar.

Record layout : Type := {
  xaxis_title : option string;
  yaxis_title : option string;
  yaxis_tickformat : option string;
  height : option Z;
  hovermode : option string;
  showlegend : option bool
}.

Record hline : Type := {
  hline_y : Z;
  line_dash : string;
  line_color : string;
  annotation_text : string
}.

Record figure (R : Type) : Type := {
  kind : chart_kind;
  data_frame : list R;
  x : string;
  y : string;
  color : option string;
  markers : bool;
  fig_title : string;
  fig_layout : layout;
  hlines : list hline;
  line_width : option Z;
  marker_size : option Z
}.

Definition empty_layout : layout :=
  {| xaxis_title := None; yaxis_title := None; yaxis_tickformat := None;
     height := None; hovermode := None; showlegend := None |}.

Definition px {R : Type} (k : chart_kind) (df : list R) (x_ y_ : string)
    (color_ : option string) (markers_ : bool) (title_ : string) : figure R :=
  {| kind := k; data_frame := df; x := x_; y := y_; color := color_;
     markers := markers_; fig_title := title_; fig_layout := empty_layout;
     hlines := []; line_width := None; marker_size := None |}.

Definition with_layout {R : Type} (fig : figure R) (l : layout) : figure R :=
  {| kind := kind fig; data_frame := data_frame fig; x := x fig; y := y fig;
     color := color fig; markers := markers fig; fig_title := fig_title fig;
     fig_layout := l; hlines := hlines fig;
     line_width := line_width fig; marker_size := marker_size fig |}.

Definition add_hline {R : Type} (fig : figure R) (h : hline) : figure R :=
  {| kind := kind fig; data_frame := data_frame fig; x := x fig; y := y fig;
     color := color fig; markers := markers fig; fig_title := fig_title fig;
     fig_layout := fig_layout fig; hlines := hlines fig ++ [h];
     line_width := line_width fig; marker_size := marker_size fig |}.

Definition update_traces {R : Type} (fig : figure R) (width size : Z)
    : figure R :=
  {| kind := kind fig; data_frame := data_frame fig; x := x fig; y := y fig;
     color := color fig; markers := markers fig; fig_title := fig_title fig;
     fig_layout := fig_layout fig; hlines := hlines fig;
     line_width := Some width; marker_size := Some size |}.

End Plotly.

(** ** The three tables *)

Module Cropland.
(** [Cropland Value.csv]: State, Year, Value. *)
Record row (V : Type) : Type := { State : string; Year : Z; Value : V }.
End Cropland.

Module CroplandView.
(** The filtered cropland frame, with the added [State_Display] column. *)
Record row : Type := {
  State : string; Year : Z; Value : float; State_Display : string
}.
End CroplandView.

Module CropPrices.
(** [Crop Prices.csv]: Commodity, Year, Value. *)
Record row (V : Type) : Type := { Commodity : string; Year : Z; Value : V }.
End CropPrices.

Module Index.
(** [Index Prices.csv]: Year, Value. *)
Record row (V : Type) : Type := { Year : Z; Value : V }.
End Index.

(** ** The app *)
Module App.

Import Pandas Plotly.
Local Open Scope string_scope.

(** [str(n)] of a Python int. *)
Definition str_of_int (n : Z) : string := NilZero.string_of_int (Z.to_int n).

Section WithLibrary.

Context {lib : Library}.

(** *** Data loading functions

    [read_csv] is the file loader; each function below takes the table it
    returns and replaces the [Value] column by its normalised form.
    [None] would be an exception raised by [to_numeric]. *)

Definition cropland_with_values (csv : list (Cropland.row cell))
    (values : list number) : list (Cropland.row number) :=
  map (fun rv =>
         {| Cropland.State := Cropland.State (fst rv);
            Cropland.Year := Cropland.Year (fst rv);
            Cropland.Value := snd rv |})
      (combine csv values).

Definition crop_prices_with_values (csv : list (CropPrices.row cell))
    (values : list number) : list (CropPrices.row number) :=
  map (fun rv =>
         {| CropPrices.Commodity := CropPrices.Commodity (fst rv);
            CropPrices.Year := CropPrices.Year (fst rv);
            CropPrices.Value := snd rv |})
      (combine csv values).

Definition index_with_values (csv : list (Index.row cell))
    (values : list number) : list (Index.row number) :=
  map (fun rv =>
         {| Index.Year := Index.Year (fst rv); Index.Value := snd rv |})
      (combine csv values).

(** [df['Value'].astype(str).str.replace(',', '')] *)
Definition cropland_value_texts (csv : list (Cropland.row cell))
    : list cell :=
  map (fun r => Text (str_remove "," (astype_str (Cropland.Value r)))) csv.

Definition load_cropland_data (csv : list (Cropland.row cell))
    : option (list (Cropland.row number)) :=
  option_map (cropland_with_values csv)
             (to_numeric (cropland_value_texts csv) errors_coerce).

Definition load_crop_prices_data (csv : list (CropPrices.row cell))
    : option (list (CropPrices.row number)) :=
  option_map (crop_prices_with_values csv)
             (to_numeric (map (@CropPrices.Value cell) csv) errors_coerce).

Definition load_index_data (csv : list (Index.row cell))
    : option (list (Index.row number)) :=
  option_map (index_with_values csv)
             (to_numeric (map (@Index.Value cell) csv) errors_coerce).

(** The loaded tables as the sections below read them, with the [Value]
    column as float64: the cells of an int64 column stand as the float of
    each integer, which is the integer itself up to 2^53 in magnitude. *)
Definition cropland_table (loaded : list (Cropland.row number))
    : list (Cropland.row float) :=
  map (fun r =>
         {| Cropland.State := Cropland.State r;
            Cropland.Year := Cropland.Year r;
            Cropland.Value := float_value (Cropland.Value r) |})
      loaded.

Definition crop_prices_table (loaded : list (CropPrices.row number))
    : list (CropPrices.row float) :=
  map (fun r =>
         {| CropPrices.Commodity := CropPrices.Commodity r;
            CropPrices.Year := CropPrices.Year r;
            CropPrices.Value := float_value (CropPrices.Value r) |})
      loaded.

Definition index_table (loaded : list (Index.row number))
    : list (Index.row float) :=
  map (fun r =>
         {| Index.Year := Index.Year r;
            Index.Value := float_value (Index.Value r) |})
      loaded.

(** *** Cropland values chart *)

(** The row selection of [create_cropland_chart]:
    [cropland_df[isin(selected_states) & (Year >= lo) & (Year <= hi)]]. *)
Definition cropland_filter (selected_states : list string)
    (year_range : Z * Z) (cropland_df : list (Cropland.row float))
    : list (Cropland.row float) :=
  filter (fun r =>
            isin (Cropland.State r) selected_states
            && (fst year_range <=? Cropland.Year r)%Z
            && (Cropland.Year r <=? snd year_range)%Z)
         cropland_df.

Definition add_state_display (r : Cropland.row float) : CroplandView.row :=
  {| CroplandView.State := Cropland.State r;
     CroplandView.Year := Cropland.Year r;
     CroplandView.Value := Cropland.Value r;
     CroplandView.State_Display := title (Cropland.State r) |}.

Definition cropland_title (year_range : Z * Z) : string :=
  "Cropland Values per Acre (" ++ str_of_int (fst year_range) ++ "-"
    ++ str_of_int (snd year_range) ++ ")".

Definition cropland_layout : layout :=
  {| xaxis_title := Some "Year";
     yaxis_title := Some "Price per Acre ($)";
     yaxis_tickformat := Some "$,.0f";
     height := Some 500%Z;
     hovermode := Some "x unified";
     showlegend := None |}.

(** [(None, None)] is [None]; [(fig, filtered_df)] is [Some (fig, filtered_df)]. *)
Definition create_cropland_chart (cropland_df : list (Cropland.row float))
    (selected_states : list string) (year_range : Z * Z)
    (chart_type : string)
    : option (figure CroplandView.row * list CroplandView.row) :=
  let filtered_df :=
    cropland_filter selected_states year_range cropland_df in
  match filtered_df with
  | [] => None
  | _ :: _ =>
      let filtered_df := map add_state_display filtered_df in
      let fig :=
        if chart_type =? "Line Chart" then
          px Line filtered_df "Year" "Value" (Some "State_Display") true
             (cropland_title year_range)
        else if chart_type =? "Area Chart" then
          px Area filtered_df "Year" "Value" (Some "State_Display") false
             (cropland_title year_range)
        else
          px Bar filtered_df "Year" "Value" (Some "State_Display") false
             (cropland_title year_range) in
      Some (with_layout fig cropland_layout, filtered_df)
  end.

(** The options of the chart-type select box. *)
Definition chart_type_options : list string :=
  ["Line Chart"; "Area Chart"; "Bar Chart"].

(** *** Summary statistics of the cropland view *)

Record summary_row : Type := {
  Average : float;
  Minimum : float;
  Maximum : float;
  Std_Dev : float
}.

Definition agg_mean_min_max_std (values : list float) : summary_row :=
  {| Average := round0 (mean values);
     Minimum := round0 (fmin values);
     Maximum := round0 (fmax values);
     Std_Dev := round0 (std values) |}.

(** [filtered_df.groupby('State_Display')['Value']
      .agg(['mean', 'min', 'max', 'std']).round(0)] *)
Definition summary_stats (filtered_df : list CroplandView.row)
    : list (string * summary_row) :=
  groupby_agg CroplandView.State_Display CroplandView.Value
              agg_mean_min_max_std filtered_df.

(** *** Crop prices chart *)

Definition commodities : list string := ["WHEAT"; "CORN"; "SOYBEANS"].

Definition crop_prices_layout : layout :=
  {| xaxis_title := Some "Year";
     yaxis_title := Some "Price per Bushel ($)";
     yaxis_tickformat := Some "$,.2f";
     height := Some 500%Z;
     hovermode := Some "x unified";
     showlegend := None |}.

Definition create_crop_prices_chart
    (crop_prices_df : list (CropPrices.row float))
    : figure (CropPrices.row float) * list (CropPrices.row float) :=
  let filtered_data :=
    filter (fun r => isin (CropPrices.Commodity r) commodities)
           crop_prices_df in
  let fig :=
    px Line filtered_data "Year" "Value" (Some "Commodity") true
       "National Crop Prices (1975-2025)" in
  (with_layout fig crop_prices_layout, filtered_data).

(** The latest-prices table, up to its ordering:
    [crop_data[Year == Year.max()][['Commodity', 'Value']]
       .sort_values('Value', ascending=False)].
    The rendering of each value as ["$x.xx"] that follows keeps the rows and
    their order. *)
Definition latest_prices (crop_data : list (CropPrices.row float))
    : list (string * float) :=
  let year_max := series_max (map (@CropPrices.Year float) crop_data) in
  let latest :=
    filter (fun r =>
              match year_max with
              | Some m => (CropPrices.Year r =? m)%Z
              | None => false
              end)
           crop_data in
  sort_values_desc (@snd string float)
    (map (fun r => (CropPrices.Commodity r, CropPrices.Value r)) latest).

(** *** Price index chart *)

Definition price_index_layout : layout :=
  {| xaxis_title := Some "Year";
     yaxis_title := Some "Price Index (2011 = 100)";
     yaxis_tickformat := Some ".1f";
     height := Some 500%Z;
     hovermode := None;
     showlegend := Some false |}.

Definition base_year_line : hline :=
  {| hline_y := 100;
     line_dash := "dash";
     line_color := "gray";
     annotation_text := "2011 Base Year (100)" |}.

Definition price_index_filter (index_df : list (Index.row float))
    : list (Index.row float) :=
  filter (fun r => (1990 <=? Index.Year r)%Z && (Index.Year r <=? 2025)%Z)
         index_df.

Definition create_price_index_chart (index_df : list (Index.row float))
    : figure (Index.row float) * list (Index.row float) :=
  let filtered_data := price_index_filter index_df in
  let fig :=
    px Line filtered_data "Year" "Value" None true
       "National Food Commodity Price Index (1990-2025)<br><sub>Base Year: 2011 = 100</sub>" in
  let fig := with_layout fig price_index_layout in
  let fig := add_hline fig base_year_line in
  let fig := update_traces fig 3 6 in
  (fig, filtered_data).

(** [current_index = index_data['Value'].iloc[0]  # Most recent value] *)
Definition current_index (index_data : list (Index.row float))
    : option float :=
  iloc0 (map (@Index.Value float) index_data).

End WithLibrary.

End App.

(** ** The page sections

    The callers of the chart builders: what each section of the page
    computes from the tables before handing it to the display. *)
Module Page.

Import Pandas Plotly App.
Local Open Scope string_scope.

Section WithLibrary.

Context {lib : Library}.

(** The right-hand column of the cropland section: the chart with its
    summary table, or a warning. *)
Inductive cropland_panel : Type :=
| Chart_with_summary (fig : figure CroplandView.row)
                     (summary : list (string * summary_row))
| Warning (message : string).

(** [if selected_states: ... if fig: ... else: st.warning(...)
     else: st.warning(...)] *)
Definition cropland_section (cropland_df : list (Cropland.row float))
    (selected_states : list string) (year_range : Z * Z)
    (chart_type : string) : cropland_panel :=
  match selected_states with
  | [] => Warning "Please select at least one state."
  | _ :: _ =>
      match create_cropland_chart cropland_df selected_states year_range
                                  chart_type with
      | Some (fig, filtered_df) =>
          Chart_with_summary fig (summary_stats filtered_df)
      | None => Warning "No data available for selected filters."
      end
  end.

(** The crop-prices section: the chart and the latest-prices table. *)
Definition crop_prices_section (crop_prices_df : list (CropPrices.row float))
    : figure (CropPrices.row float) * list (string * float) :=
  let (fig, crop_data) := create_crop_prices_chart crop_prices_df in
  (fig, latest_prices crop_data).

(** The key statistics of the price-index section, before their
    rendering with one decimal. *)
Definition avg_index (index_data : list (Index.row float)) : float :=
  series_mean (map (@Index.Value float) index_data).

Definition max_index (index_data : list (Index.row float)) : float :=
  fmax (map (@Index.Value float) index_data).

Definition min_index (index_data : list (Index.row float)) : float :=
  fmin (map (@Index.Value float) index_data).

Record index_metrics : Type := {
  Current_Index : float;
  Average_Index : float;
  Highest_Index : float;
  Lowest_Index : float
}.

(** The price-index section; [None] stands for the IndexError that
    [iloc[0]] raises on an empty frame, before any metric is shown. *)
Definition price_index_section (index_df : list (Index.row float))
    : option (figure (Index.row float) * index_metrics) :=
  let (fig, index_data) := create_price_index_chart index_df in
  match current_index index_data with
  | None => None
  | Some current =>
      Some (fig, {| Current_Index := current;
                    Average_Index := avg_index index_data;
                    Highest_Index := max_index index_data;
                    Lowest_Index := min_index index_data |})
  end.

End WithLibrary.

End Page.

(** ** Texts *)
Module Texts.

Import Pandas.

(** The raw cell of a cropland row, with the separators of a text cell
    taken out beforehand. *)
Definition without_separators (c : cell) : cell :=
  match c with
  | Text s => Text (str_remove "," s)
  | Number n => Number n
  end.

(** The order of group keys: by character code, as Python compares
    texts. *)
Definition key_le (a b : string) : Prop := String.leb a b = true.

Definition key_lt (a b : string) : Prop := String.ltb a b = true.

End Texts.

(** ** The contracts of the specification, in its own words

    These follow the specification text, not the code; the theorems compare
    them with the functions of [Module App]. *)
Module Contract.

Import Pandas.

(** Contract C: the value at the maximum period present in the view; among
    several rows at that period, the first in dataset order. *)
Definition latest_single (view : list (Index.row float)) : option float :=
  match series_max (map (@Index.Year float) view) with
  | None => None
  | Some m =>
      option_map (@Index.Value float)
                 (find (fun r => (Index.Year r =? m)%Z) view)
  end.

(** The values an entity has in a summarized view, missing ones included. *)
Definition entity_values (view : list CroplandView.row) (e : string)
    : list float :=
  map CroplandView.Value
      (filter (fun r => String.eqb (CroplandView.State_Display r) e) view).

(** A row is at the view's maximum period when no row has a later one. *)
Definition at_max_period (view : list (CropPrices.row float))
    (r : CropPrices.row float) : bool :=
  forallb (fun r' => (CropPrices.Year r' <=? CropPrices.Year r)%Z) view.

(** Contract B, the rows it orders: the (entity, value) pairs at the
    view's maximum period, in dataset order. *)
Definition latest_pairs (view : list (CropPrices.row float))
    : list (string * float) :=
  map (fun r => (CropPrices.Commodity r, CropPrices.Value r))
      (filter (at_max_period view) view).

(** [a] may stand before [b] in a descending order with missing last. *)
Definition value_desc (a b : string * float) : Prop :=
  isna (snd b) = true
  \/ (isna (snd a) = false /\ (snd b <=? snd a)%float = true).

(** Contract B's tie-break: equal values are in ascending name order. *)
Definition name_tie_break (a b : string * float) : Prop :=
  (snd a =? snd b)%float = true -> String.leb (fst a) (fst b) = true.

(** The normalised form [v] of a cell that was read as [o]: missing when
    the cell was not read as a number, and else the number read, as it is
    or as the float64 it becomes in a float64 column. *)
Definition normalised (o : option number) (v : number) : Prop :=
  match o with
  | None => number_isna v = true
  | Some n => v = n \/ v = Float (float_value n)
  end.

(** A column of one dtype: int64 or float64. *)
Definition one_dtype (values : list number) : Prop :=
  Forall (fun v => exists z, v = Int z) values
  \/ Forall (fun v => exists f, v = Float f) values.

(** An entity renamed in every row of a view. *)
Definition rename (g : string -> string) (r : CropPrices.row float)
    : CropPrices.row float :=
  {| CropPrices.Commodity := g (CropPrices.Commodity r);
     CropPrices.Year := CropPrices.Year r;
     CropPrices.Value := CropPrices.Value r |}.

End Contract.

(** ** Sample tables and a sample library *)
Module Samples.

Import Pandas.
Local Open Scope string_scope.

Definition cropland_row (s : string) (yr : Z) (v : float)
    : Cropland.row float :=
  {| Cropland.State := s; Cropland.Year := yr; Cropland.Value := v |}.

Definition crop_row (c : string) (yr : Z) (v : float)
    : CropPrices.row float :=
  {| CropPrices.Commodity := c; CropPrices.Year := yr;
     CropPrices.Value := v |}.

Definition index_row (yr : Z) (v : float) : Index.row float :=
  {| Index.Year := yr; Index.Value := v |}.

(** The scenario table of the specification. *)
Definition cropland_scenario : list (Cropland.row float) :=
  [ cropland_row "KENTUCKY" 2020 100;
    cropland_row "KENTUCKY" 2021 200;
    cropland_row "OHIO" 2020 150 ].

(** A state whose only value did not parse. *)
Definition cropland_unparsed : list (Cropland.row float) :=
  [ cropland_row "KENTUCKY" 2020 nan;
    cropland_row "OHIO" 2020 150 ].

(** An index table listed oldest year first. *)
Definition index_oldest_first : list (Index.row float) :=
  [ index_row 2023 90; index_row 2024 100 ].

(** The duplicate-period scenario of the specification. *)
Definition index_duplicate : list (Index.row float) :=
  [ index_row 2024 100; index_row 2024 102 ].

(** Two commodities at the same latest price, in either file order. *)
Definition crop_tie : list (CropPrices.row float) :=
  [ crop_row "WHEAT" 2024 5; crop_row "CORN" 2024 5 ].

Definition crop_tie_swapped : list (CropPrices.row float) :=
  [ crop_row "CORN" 2024 5; crop_row "WHEAT" 2024 5 ].

Definition crop_mixed : list (CropPrices.row float) :=
  [ crop_row "CORN" 2023 4; crop_row "WHEAT" 2024 5;
    crop_row "CORN" 2024 nan; crop_row "SOYBEANS" 2024 10;
    crop_row "OATS" 2024 3 ].

(** A numeric cell holding an infinity, as [read_csv] yields for [inf]. *)
Definition crop_csv_inf : list (CropPrices.row cell) :=
  [ {| CropPrices.Commodity := "CORN"; CropPrices.Year := 2024%Z;
       CropPrices.Value := Number (Float infinity) |} ].

(** A raw cropland table: a value with a separator, and one that is not a
    number. *)
Definition cropland_csv : list (Cropland.row cell) :=
  [ {| Cropland.State := "KENTUCKY"; Cropland.Year := 2020%Z;
       Cropland.Value := Text "4,850" |};
    {| Cropland.State := "OHIO"; Cropland.Year := 2020%Z;
       Cropland.Value := Text "(D)" |} ].

(** *** A sample library

    One choice of what the library computes, to evaluate the app on the
    tables above: title case of ASCII letters, a reader and a writer of
    unsigned integer literals, no reordering of equal sort keys, and the
    textbook
    formulas of mean and standard deviation in left-to-right float
    arithmetic.  It stands for pandas on these tables only. *)

Definition is_upper (c : ascii) : bool :=
  let n := nat_of_ascii c in (65 <=? n)%nat && (n <=? 90)%nat.

Definition is_lower (c : ascii) : bool :=
  let n := nat_of_ascii c in (97 <=? n)%nat && (n <=? 122)%nat.

Definition to_upper (c : ascii) : ascii :=
  if is_lower c then ascii_of_nat (nat_of_ascii c - 32) else c.

Definition to_lower (c : ascii) : ascii :=
  if is_upper c then ascii_of_nat (nat_of_ascii c + 32) else c.

(** A letter that follows a letter is lower-cased, any other letter is
    upper-cased. *)
Fixpoint title_from (prev_cased : bool) (s : string) : string :=
  match s with
  | EmptyString => EmptyString
  | String c s' =>
      String (if prev_cased then to_lower c else to_upper c)
             (title_from (is_upper c || is_lower c) s')
  end.

Definition ascii_title (s : string) : string := title_from false s.

Definition digit_value (c : ascii) : option Z :=
  let n := nat_of_ascii c in
  if (48 <=? n)%nat && (n <=? 57)%nat then Some (Z.of_nat (n - 48))
  else None.

Fixpoint read_digits (acc : Z) (s : string) : option Z :=
  match s with
  | EmptyString => Some acc
  | String c s' =>
      match digit_value c with
      | Some d => read_digits (10 * acc + d) s'
      | None => None
      end
  end.

(** Texts made of decimal digits only are read, as integers. *)
Definition parse_digits (s : string) : option number :=
  match s with
  | EmptyString => None
  | _ => option_map Int (read_digits 0 s)
  end.

Definition float_of_nat (n : nat) : float :=
  of_uint63 (Uint63.of_Z (Z.of_nat n)).

Definition fsum (l : list float) : float := fold_left PrimFloat.add l zero.

Definition textbook_mean (vs : list float) : float :=
  (fsum vs / float_of_nat (List.length vs))%float.

Definition textbook_std (vs : list float) : float :=
  let m := textbook_mean vs in
  sqrt (fsum (map (fun x => ((x - m) * (x - m))%float) vs)
        / float_of_nat (List.length vs - 1))%float.

(** The text of an integer; no text is given for a float. *)
Definition repr_digits (n : number) : string :=
  match n with
  | Int z => NilZero.string_of_int (Z.to_int z)
  | Float _ => ""
  end.

Definition library : Library :=
  {| title := ascii_title;
     parse_number := parse_digits;
     repr_number := repr_digits;
     tie_rank := fun _ _ => 0%nat;
     mean_of := textbook_mean;
     std_of := textbook_std;
     series_mean_of := textbook_mean |}.

(** The same library with the places among equal keys reversed. *)
Definition library_ties_reversed : Library :=
  {| title := ascii_title;
     parse_number := parse_digits;
     repr_number := repr_digits;
     tie_rank := fun keys i => (List.length keys - i)%nat;
     mean_of := textbook_mean;
     std_of := textbook_std;
     series_mean_of := textbook_mean |}.

End Samples.

(** * Properties *)

(** ** Order laws of binary64 comparison *)
Module FloatFacts.

Import FloatOrder.

Lemma SFcompare_key (f g : spec_float) :
  SFcompare f g =
  match SFkey f, SFkey g with
  | Some a, Some b => Some (lex3 a b)
  | _, _ => None
  end.
Proof.
  destruct f as [sf| sf| |sf mf ef], g as [sg| sg| |sg mg eg];
    try destruct sf; try destruct sg; try reflexivity.
  cbn. rewrite Z.compare_opp, (Z.compare_antisym eg ef).
  destruct (eg ?= ef)%Z; reflexivity.
Qed.

Lemma lex3_refl (a : key3) : lex3 a a = Eq.
Proof.
  destruct a as [[a1 a2] a3]. cbn. now rewrite !Z.compare_refl.
Qed.

Lemma lex3_eq (a b : key3) : lex3 a b = Eq -> a = b.
Proof.
  destruct a as [[a1 a2] a3], b as [[b1 b2] b3]. cbn.
  destruct (Z.compare_spec a1 b1); try discriminate.
  destruct (Z.compare_spec a2 b2); try discriminate.
  destruct (Z.compare_spec a3 b3); try discriminate.
  intros _. congruence.
Qed.

Lemma lex3_antisym (a b : key3) : lex3 b a = CompOpp (lex3 a b).
Proof.
  destruct a as [[a1 a2] a3], b as [[b1 b2] b3]. cbn.
  rewrite (Z.compare_antisym a1 b1), (Z.compare_antisym a2 b2),
    (Z.compare_antisym a3 b3).
  destruct (a1 ?= b1)%Z, (a2 ?= b2)%Z, (a3 ?= b3)%Z; reflexivity.
Qed.

Lemma lex3_lt_trans (a b c : key3) :
  lex3 a b = Lt -> lex3 b c = Lt -> lex3 a c = Lt.
Proof.
  destruct a as [[a1 a2] a3], b as [[b1 b2] b3], c as [[c1 c2] c3]. cbn.
  destruct (Z.compare_spec a1 b1), (Z.compare_spec b1 c1);
    try discriminate;
    destruct (Z.compare_spec a1 c1); try lia; try reflexivity;
    destruct (Z.compare_spec a2 b2), (Z.compare_spec b2 c2);
    try discriminate;
    destruct (Z.compare_spec a2 c2); try lia; try reflexivity;
    destruct (Z.compare_spec a3 b3), (Z.compare_spec b3 c3);
    try discriminate;
    destruct (Z.compare_spec a3 c3); try lia; try reflexivity.
Qed.

Lemma lex3_le_trans (a b c : key3) :
  lex3 a b <> Gt -> lex3 b c <> Gt -> lex3 a c <> Gt.
Proof.
  intros Hab Hbc.
  destruct (lex3 a b) eqn:Eab; try congruence.
  - apply lex3_eq in Eab. now subst b.
  - destruct (lex3 b c) eqn:Ebc; try congruence.
    + apply lex3_eq in Ebc. subst c. congruence.
    + rewrite (lex3_lt_trans _ _ _ Eab Ebc). discriminate.
Qed.

Lemma eqb_key (x y : float) :
  (x =? y)%float =
  match fkey x, fkey y with
  | Some a, Some b => match lex3 a b with Eq => true | _ => false end
  | _, _ => false
  end.
Proof.
  rewrite eqb_spec. unfold SFeqb, fkey. rewrite SFcompare_key.
  destruct (SFkey (Prim2SF x)), (SFkey (Prim2SF y)); reflexivity.
Qed.

Lemma ltb_key (x y : float) :
  (x <? y)%float =
  match fkey x, fkey y with
  | Some a, Some b => match lex3 a b with Lt => true | _ => false end
  | _, _ => false
  end.
Proof.
  rewrite ltb_spec. unfold SFltb, fkey. rewrite SFcompare_key.
  destruct (SFkey (Prim2SF x)), (SFkey (Prim2SF y)); reflexivity.
Qed.

Lemma leb_key (x y : float) :
  (x <=? y)%float =
  match fkey x, fkey y with
  | Some a, Some b => match lex3 a b with Gt => false | _ => true end
  | _, _ => false
  end.
Proof.
  rewrite leb_spec. unfold SFleb, fkey. rewrite SFcompare_key.
  destruct (SFkey (Prim2SF x)), (SFkey (Prim2SF y)); reflexivity.
Qed.

Lemma is_nan_key (x : float) :
  is_nan x = match fkey x with Some _ => false | None => true end.
Proof.
  unfold is_nan. rewrite eqb_key.
  destruct (fkey x) as [a|]; [now rewrite lex3_refl | reflexivity].
Qed.

(** Two numbers are comparable one way or the other. *)
Lemma not_ltb_leb (x y : float) :
  is_nan x = false -> is_nan y = false ->
  (x <? y)%float = false -> (y <=? x)%float = true.
Proof.
  rewrite !is_nan_key, ltb_key, leb_key.
  destruct (fkey x) as [a|], (fkey y) as [b|]; try discriminate.
  intros _ _. rewrite (lex3_antisym a b).
  destruct (lex3 a b); cbn; congruence.
Qed.

Lemma ltb_leb (x y : float) :
  (x <? y)%float = true -> (x <=? y)%float = true.
Proof.
  rewrite ltb_key, leb_key.
  destruct (fkey x) as [a|], (fkey y) as [b|]; try discriminate.
  destruct (lex3 a b); congruence.
Qed.

Lemma leb_trans (x y z : float) :
  (x <=? y)%float = true -> (y <=? z)%float = true ->
  (x <=? z)%float = true.
Proof.
  rewrite !leb_key.
  destruct (fkey x) as [a|], (fkey y) as [b|], (fkey z) as [c|];
    try discriminate.
  intros Hab Hbc.
  assert (H : lex3 a c <> Gt).
  { apply lex3_le_trans with b.
    - destruct (lex3 a b); congruence.
    - destruct (lex3 b c); congruence. }
  destruct (lex3 a c); congruence.
Qed.

(** Two values equal to a third are not strictly ordered. *)
Lemma eqb_eqb_not_ltb (x y v : float) :
  (x =? v)%float = true -> (y =? v)%float = true ->
  (x <? y)%float = false.
Proof.
  rewrite !eqb_key, ltb_key.
  destruct (fkey x) as [a|], (fkey y) as [b|], (fkey v) as [c|];
    try discriminate.
  destruct (lex3 a c) eqn:Eac; try discriminate.
  destruct (lex3 b c) eqn:Ebc; try discriminate.
  apply lex3_eq in Eac, Ebc. subst. now rewrite lex3_refl.
Qed.

Lemma eqb_not_nan (x v : float) :
  (x =? v)%float = true -> is_nan x = false /\ is_nan v = false.
Proof.
  rewrite eqb_key, !is_nan_key.
  destruct (fkey x), (fkey v); try discriminate. auto.
Qed.

Lemma ltb_not_nan (x y : float) :
  (x <? y)%float = true -> is_nan x = false /\ is_nan y = false.
Proof.
  rewrite ltb_key, !is_nan_key.
  destruct (fkey x), (fkey y); try discriminate. auto.
Qed.

Lemma eqb_leb (x y : float) :
  (x =? y)%float = true -> (x <=? y)%float = true.
Proof.
  rewrite eqb_key, leb_key.
  destruct (fkey x) as [a|], (fkey y) as [b|]; try discriminate.
  destruct (lex3 a b); congruence.
Qed.

End FloatFacts.

(** ** Facts about the pandas operations *)
Module PandasFacts.

Import Pandas.

Lemma filter_twice {A : Type} (f : A -> bool) (l : list A) :
  filter f (filter f l) = filter f l.
Proof.
  induction l as [|a l IH]; cbn; [reflexivity|].
  destruct (f a) eqn:E; cbn; [rewrite E, IH|]; auto.
Qed.

Lemma filter_filter {A : Type} (f g : A -> bool) (l : list A) :
  filter f (filter g l) = filter (fun a => g a && f a) l.
Proof.
  induction l as [|a l IH]; cbn; [reflexivity|].
  destruct (g a); cbn; [destruct (f a)|]; now rewrite IH.
Qed.

Lemma isin_In (s : string) (values : list string) :
  isin s values = true <-> In s values.
Proof.
  unfold isin. rewrite existsb_exists. split.
  - intros (v & Hv & E). apply String.eqb_eq in E. now subst.
  - intros H. exists s. split; [assumption | apply String.eqb_refl].
Qed.

(** *** Group keys *)

Lemma insert_key_perm (k : string) (l : list string) :
  Permutation (insert_key k l) (k :: l).
Proof.
  induction l as [|h t IH]; cbn; [reflexivity|].
  destruct (String.leb k h); [reflexivity|].
  rewrite IH. apply perm_swap.
Qed.

Lemma sort_keys_perm (l : list string) : Permutation (sort_keys l) l.
Proof.
  induction l as [|k l IH]; cbn; [reflexivity|].
  rewrite insert_key_perm. now constructor.
Qed.

Lemma group_keys_In (l : list string) (k : string) :
  In k (group_keys l) <-> In k l.
Proof.
  unfold group_keys. rewrite <- (nodup_In string_dec l k). split.
  - apply Permutation_in, sort_keys_perm.
  - apply Permutation_in. symmetry. apply sort_keys_perm.
Qed.

Lemma group_keys_NoDup (l : list string) : NoDup (group_keys l).
Proof.
  unfold group_keys.
  apply Permutation_NoDup with (nodup string_dec l).
  - symmetry. apply sort_keys_perm.
  - apply NoDup_nodup.
Qed.

Lemma groupby_agg_keys {R B : Type} (key : R -> string) (val : R -> float)
    (agg : list float -> B) (df : list R) :
  map fst (groupby_agg key val agg df) = group_keys (map key df).
Proof.
  unfold groupby_agg. rewrite map_map. cbn. apply map_id.
Qed.

Lemma groupby_agg_In {R B : Type} (key : R -> string) (val : R -> float)
    (agg : list float -> B) (df : list R) (k : string) (b : B) :
  In (k, b) (groupby_agg key val agg df) <->
  In k (map key df)
  /\ b = agg (map val (filter (fun r => String.eqb (key r) k) df)).
Proof.
  unfold groupby_agg. rewrite in_map_iff. split.
  - intros (k' & E & Hk). inversion E; subst.
    split; [now apply group_keys_In | reflexivity].
  - intros [Hk ->]. exists k. split; [reflexivity | now apply group_keys_In].
Qed.

(** *** [Series.max] *)

Lemma fold_max_spec (zs : list Z) (z : Z) :
  In (fold_left Z.max zs z) (z :: zs)
  /\ Forall (fun y => (y <= fold_left Z.max zs z)%Z) (z :: zs).
Proof.
  revert z. induction zs as [|a zs IH]; intros z; cbn.
  - split; [now left | constructor; [lia | constructor]].
  - destruct (IH (Z.max z a)) as [Hin Hall]. cbn in Hin.
    set (m := fold_left Z.max zs (Z.max z a)) in *.
    inversion Hall as [|? ? Hz Hzs]; subst. split.
    + destruct Hin as [Hin|Hin]; [|now right; right].
      destruct (Z.max_spec z a) as [[_ E]|[_ E]]; rewrite E in Hin; auto.
    + constructor; [lia|]. constructor; [lia | assumption].
Qed.

Lemma series_max_spec (l : list Z) (m : Z) :
  series_max l = Some m -> In m l /\ Forall (fun y => (y <= m)%Z) l.
Proof.
  destruct l as [|z zs]; cbn; [discriminate|].
  intros E. inversion E; subst. apply (fold_max_spec zs z).
Qed.

Lemma series_max_None (l : list Z) : series_max l = None -> l = [].
Proof. destruct l; [reflexivity | discriminate]. Qed.

End PandasFacts.

(** ** [sort_values(ascending=False)]: descending, whatever the ties *)
Module SortFacts.

Import Pandas FloatFacts PandasFacts.

Section SortValues.

Context {lib : Library}.
Variable R : Type.
Variable by_ : R -> float.

(** [a] may precede [b]: [b] is missing, or both are numbers and [b] is
    not the larger one. *)
Definition precedes (a b : R) : Prop :=
  isna (by_ b) = true
  \/ (isna (by_ a) = false /\ (by_ b <=? by_ a)%float = true).

Let present (x : R) : Prop := isna (by_ x) = false.

Let ranked_precedes (a b : nat * R) : Prop := precedes (snd a) (snd b).

Lemma goes_after_leb (x h : nat * R) :
  goes_after by_ x h = true -> (by_ (snd x) <=? by_ (snd h))%float = true.
Proof.
  unfold goes_after. intros H. apply orb_true_iff in H.
  destruct H as [H|H]; [now apply ltb_leb|].
  apply andb_true_iff in H. destruct H as [H _]. now apply eqb_leb.
Qed.

Lemma not_goes_after_leb (x h : nat * R) :
  present (snd x) -> present (snd h) ->
  goes_after by_ x h = false -> (by_ (snd h) <=? by_ (snd x))%float = true.
Proof.
  unfold goes_after. intros Hx Hh H. apply orb_false_iff in H.
  destruct H as [H _]. now apply not_ltb_leb.
Qed.

Lemma insert_desc_perm (x : nat * R) (l : list (nat * R)) :
  Permutation (insert_desc by_ x l) (x :: l).
Proof.
  induction l as [|h t IH]; cbn; [reflexivity|].
  destruct (goes_after by_ x h); [|reflexivity].
  rewrite IH. apply perm_swap.
Qed.

Lemma fold_insert_desc_perm (l : list (nat * R)) :
  Permutation (fold_right (insert_desc by_) [] l) l.
Proof.
  induction l as [|x l IH]; cbn; [reflexivity|].
  rewrite insert_desc_perm. now constructor.
Qed.

Lemma map_snd_combine {A B : Type} (a : list A) (b : list B) :
  List.length a = List.length b -> map snd (combine a b) = b.
Proof.
  revert b. induction a as [|x a IH]; intros [|y b]; cbn;
    try discriminate; [reflexivity|].
  intros E. f_equal. apply IH. now inversion E.
Qed.

Lemma ranked_rows (l : list R) : map snd (ranked by_ l) = l.
Proof.
  unfold ranked. apply map_snd_combine. now rewrite length_map, length_seq.
Qed.

Lemma sort_desc_perm (l : list R) : Permutation (sort_desc by_ l) l.
Proof.
  unfold sort_desc. rewrite <- (ranked_rows l) at 2.
  apply Permutation_map, fold_insert_desc_perm.
Qed.

Lemma insert_desc_sorted (x : nat * R) (l : list (nat * R)) :
  present (snd x) -> Forall (fun y => present (snd y)) l ->
  StronglySorted ranked_precedes l ->
  StronglySorted ranked_precedes (insert_desc by_ x l).
Proof.
  intros Hx Hl Hs. induction Hs as [|h t Hs IH Hh]; cbn.
  - constructor; constructor.
  - inversion Hl as [|? ? Hph Hpt]; subst.
    destruct (goes_after by_ x h) eqn:E.
    + constructor; [now apply IH|].
      apply Permutation_Forall with (x :: t).
      * symmetry. apply insert_desc_perm.
      * constructor; [|assumption].
        right. split; [assumption | now apply goes_after_leb].
    + assert (Hhx : (by_ (snd h) <=? by_ (snd x))%float = true)
        by now apply not_goes_after_leb.
      constructor; [now constructor|].
      constructor; [right; now split|].
      rewrite Forall_forall in Hh, Hpt |- *. intros y Hy.
      right. split; [assumption|].
      destruct (Hh y Hy) as [Hn|[_ Hle]].
      * specialize (Hpt y Hy). unfold present in Hpt.
        rewrite Hpt in Hn. discriminate.
      * now apply leb_trans with (by_ (snd h)).
Qed.

Lemma fold_insert_desc_sorted (l : list (nat * R)) :
  Forall (fun y => present (snd y)) l ->
  StronglySorted ranked_precedes (fold_right (insert_desc by_) [] l).
Proof.
  induction 1 as [|x l Hx Hl IH]; cbn; [constructor|].
  apply insert_desc_sorted; [assumption| |assumption].
  apply Permutation_Forall with l; [|assumption].
  symmetry. apply fold_insert_desc_perm.
Qed.

Lemma StronglySorted_map_snd (l : list (nat * R)) :
  StronglySorted ranked_precedes l -> StronglySorted precedes (map snd l).
Proof.
  induction 1 as [|a l Hs IH Ha]; cbn; constructor; [assumption|].
  rewrite Forall_forall in Ha |- *. intros b Hb.
  apply in_map_iff in Hb. destruct Hb as (y & <- & Hy). now apply Ha.
Qed.

Lemma sort_desc_sorted (l : list R) :
  Forall present l -> StronglySorted precedes (sort_desc by_ l).
Proof.
  intros Hl. unfold sort_desc. apply StronglySorted_map_snd.
  apply fold_insert_desc_sorted. rewrite Forall_forall in Hl |- *.
  intros y Hy. apply Hl. rewrite <- (ranked_rows l). now apply in_map.
Qed.

Lemma partition_perm (f : R -> bool) (l : list R) :
  Permutation (filter (fun x => negb (f x)) l ++ filter f l) l.
Proof.
  induction l as [|a l IH]; cbn; [reflexivity|].
  destruct (f a); cbn.
  - symmetry. apply Permutation_cons_app. now symmetry.
  - now constructor.
Qed.

Lemma StronglySorted_app (P : R -> R -> Prop) (l1 l2 : list R) :
  StronglySorted P l1 -> StronglySorted P l2 ->
  (forall a b, In a l1 -> In b l2 -> P a b) ->
  StronglySorted P (l1 ++ l2).
Proof.
  intros H1 H2 H. induction H1 as [|a l1 Hs IH Ha]; cbn; [assumption|].
  constructor.
  - apply IH. intros x b Hx Hb. apply H; [now right | assumption].
  - apply Forall_app. split; [assumption|].
    rewrite Forall_forall. intros b Hb. apply H; [now left | assumption].
Qed.

Lemma all_missing_sorted (l : list R) :
  Forall (fun x => isna (by_ x) = true) l -> StronglySorted precedes l.
Proof.
  induction 1 as [|a l Ha Hl IH]; constructor; [assumption|].
  rewrite Forall_forall in Hl |- *. intros b Hb. left. now apply Hl.
Qed.

Theorem sort_values_desc_perm (df : list R) :
  Permutation (sort_values_desc by_ df) df.
Proof.
  unfold sort_values_desc. rewrite sort_desc_perm.
  apply (partition_perm (fun r => isna (by_ r))).
Qed.

Theorem sort_values_desc_sorted (df : list R) :
  StronglySorted precedes (sort_values_desc by_ df).
Proof.
  unfold sort_values_desc. apply StronglySorted_app.
  - apply sort_desc_sorted. rewrite Forall_forall. intros x Hx.
    apply filter_In in Hx. destruct Hx as [_ Hx].
    unfold present. now destruct (isna (by_ x)).
  - apply all_missing_sorted. rewrite Forall_forall. intros x Hx.
    apply filter_In in Hx. tauto.
  - intros a b _ Hb. left. apply filter_In in Hb. tauto.
Qed.

(** The order depends on the keys only: a change of the rows that keeps
    every key commutes with the sort. *)
Variable h : R -> R.
Hypothesis h_keeps_key : forall r, by_ (h r) = by_ r.

Let h' (x : nat * R) : nat * R := (fst x, h (snd x)).

Lemma insert_desc_map (x : nat * R) (l : list (nat * R)) :
  insert_desc by_ (h' x) (map h' l) = map h' (insert_desc by_ x l).
Proof.
  induction l as [|y t IH]; cbn; [reflexivity|].
  assert (E : goes_after by_ (h' x) (h' y) = goes_after by_ x y).
  { unfold goes_after, h'. cbn. now rewrite !h_keeps_key. }
  rewrite E. destruct (goes_after by_ x y); cbn; [now rewrite IH|reflexivity].
Qed.

Lemma fold_insert_desc_map (l : list (nat * R)) :
  fold_right (insert_desc by_) [] (map h' l)
  = map h' (fold_right (insert_desc by_) [] l).
Proof.
  induction l as [|x l IH]; cbn; [reflexivity|].
  rewrite IH. apply insert_desc_map.
Qed.

Lemma combine_map_r {A : Type} (a : list A) (l : list R) :
  combine a (map h l) = map (fun x => (fst x, h (snd x))) (combine a l).
Proof.
  revert l. induction a as [|x a IH]; intros [|y l]; cbn;
    try reflexivity. now rewrite IH.
Qed.

Lemma ranked_map (l : list R) : ranked by_ (map h l) = map h' (ranked by_ l).
Proof.
  unfold ranked. rewrite map_map, length_map, combine_map_r.
  assert (E : map (fun x => by_ (h x)) l = map by_ l)
    by (apply map_ext; intros r; apply h_keeps_key).
  now rewrite E.
Qed.

Lemma sort_desc_map (l : list R) :
  sort_desc by_ (map h l) = map h (sort_desc by_ l).
Proof.
  unfold sort_desc. rewrite ranked_map, fold_insert_desc_map, !map_map.
  reflexivity.
Qed.

Theorem sort_values_desc_map (df : list R) :
  sort_values_desc by_ (map h df) = map h (sort_values_desc by_ df).
Proof.
  unfold sort_values_desc.
  assert (Hf : forall f : float -> bool,
    filter (fun r => f (by_ r)) (map h df)
    = map h (filter (fun r => f (by_ r)) df)).
  { intros f. induction df as [|a l IH]; cbn; [reflexivity|].
    rewrite h_keeps_key. destruct (f (by_ a)); cbn; now rewrite IH. }
  rewrite (Hf (fun v => negb (isna v))), (Hf isna).
  now rewrite sort_desc_map, map_app.
Qed.

End SortValues.

End SortFacts.

(** ** The model on the scenarios of the specification

    The app evaluated under the sample library. *)
Module Scenarios.

Import Pandas Plotly App.
Local Open Scope string_scope.

Example title_of_state : Samples.ascii_title "NEW YORK" = "New York".
Proof. reflexivity. Qed.

Example separators_removed : str_remove "," "1,234,567" = "1234567".
Proof. reflexivity. Qed.

Example round0_half_to_even :
  round0 2.5 = 2%float /\ round0 3.5 = 4%float /\ round0 nan = nan.
Proof. repeat split; reflexivity. Qed.

(** A text that is not a number raises under [errors='raise'] and is
    coerced to NaN, in a float64 column, under [errors='coerce']; a column
    of integer texts stays int64. *)
Example to_numeric_modes :
  to_numeric (lib := Samples.library) [Text "12"; Text "(D)"] errors_raise
  = None
  /\ to_numeric (lib := Samples.library) [Text "12"; Text "(D)"]
       errors_coerce
     = Some [Float 12; Float nan]
  /\ to_numeric (lib := Samples.library) [Text "12"; Text "7"] errors_coerce
     = Some [Int 12; Int 7].
Proof. repeat split; reflexivity. Qed.

(** KY: mean 150, min 100, max 200; OH: mean, min and max 150 and no
    standard deviation. *)
Example scenario_summary :
  option_map (fun p => summary_stats (lib := Samples.library) (snd p))
    (create_cropland_chart (lib := Samples.library)
       Samples.cropland_scenario ["KENTUCKY"; "OHIO"]
       (2020, 2021)%Z "Line Chart")
  = Some [ ("Kentucky", {| Average := 150; Minimum := 100; Maximum := 200;
                           Std_Dev := 71 |});
           ("Ohio", {| Average := 150; Minimum := 150; Maximum := 150;
                       Std_Dev := nan |}) ].
Proof. reflexivity. Qed.

(** A year range outside the data: no figure, no frame. *)
Example scenario_no_data :
  create_cropland_chart (lib := Samples.library) Samples.cropland_scenario
    ["KENTUCKY"; "OHIO"] (2030, 2031)%Z "Line Chart" = None.
Proof. reflexivity. Qed.

Example scenario_latest_prices :
  latest_prices (lib := Samples.library)
    (snd (create_crop_prices_chart Samples.crop_mixed))
  = [("SOYBEANS", 10%float); ("WHEAT", 5%float); ("CORN", nan)].
Proof. reflexivity. Qed.

(** With the places among equal keys reversed, the two commodities at the
    same price come out in the opposite order. *)
Example scenario_ties_reversed :
  latest_prices (lib := Samples.library) Samples.crop_tie
  = [("WHEAT", 5%float); ("CORN", 5%float)]
  /\ latest_prices (lib := Samples.library_ties_reversed) Samples.crop_tie
     = [("CORN", 5%float); ("WHEAT", 5%float)].
Proof. split; reflexivity. Qed.

(** A value with a thousands separator and a text that is not a number:
    both rows are kept, the second with a missing value, and the column
    is float64. *)
Example scenario_loading :
  load_cropland_data (lib := Samples.library) Samples.cropland_csv
  = Some [ {| Cropland.State := "KENTUCKY"; Cropland.Year := 2020%Z;
              Cropland.Value := Float 4850 |};
           {| Cropland.State := "OHIO"; Cropland.Year := 2020%Z;
              Cropland.Value := Float nan |} ].
Proof. reflexivity. Qed.

End Scenarios.

(** ** The claims *)

Import Pandas Plotly App PandasFacts.
Local Open Scope string_scope.

(** *** Filter engine *)

(** C6. Whatever the dataset and the selected states, a year range whose
    lower end is strictly above its upper end selects no row: the filtered
    frame is empty, and [create_cropland_chart] answers [(None, None)]
    for every chart type. *)
Theorem C6_inverted_year_range_selects_nothing {lib : Library}
    (cropland_df : list (Cropland.row float)) (selected_states : list string)
    (year_range : Z * Z) :
  (fst year_range > snd year_range)%Z ->
  cropland_filter selected_states year_range cropland_df = []
  /\ forall chart_type,
       create_cropland_chart cropland_df selected_states year_range chart_type
       = None.
Proof.
  intros Hrange.
  assert (E : cropland_filter selected_states year_range cropland_df = []).
  { unfold cropland_filter. induction cropland_df as [|r df IH]; cbn.
    - reflexivity.
    - rewrite IH.
      destruct (fst year_range <=? Cropland.Year r)%Z eqn:Hlo,
               (Cropland.Year r <=? snd year_range)%Z eqn:Hhi;
        rewrite ?andb_false_r; cbn; try reflexivity.
      apply Z.leb_le in Hlo, Hhi. lia. }
  split; [assumption|].
  intros chart_type. unfold create_cropland_chart. now rewrite E.
Qed.

(** C6 at the scenario table, with the year range 2021-2020. *)
Lemma C6_inverted_year_range_witness :
  (fst (2021, 2020) > snd (2021, 2020))%Z
  /\ cropland_filter ["KENTUCKY"; "OHIO"] (2021, 2020)%Z
       Samples.cropland_scenario = []
  /\ forall chart_type,
       create_cropland_chart (lib := Samples.library)
         Samples.cropland_scenario ["KENTUCKY"; "OHIO"]
         (2021, 2020)%Z chart_type = None.
Proof.
  split; [reflexivity|].
  apply (C6_inverted_year_range_selects_nothing (lib := Samples.library)
           Samples.cropland_scenario ["KENTUCKY"; "OHIO"] (2021, 2020)%Z).
  reflexivity.
Defined.

(** C7. Filtering twice with the same selection is filtering once: the
    second pass over the filtered frame removes nothing and keeps the
    order.  This holds for the cropland selection with every choice of
    states and year range, and for the fixed selections of the crop-price
    and price-index views. *)
Theorem C7_filter_idempotent :
  (forall selected_states year_range cropland_df,
      cropland_filter selected_states year_range
        (cropland_filter selected_states year_range cropland_df)
      = cropland_filter selected_states year_range cropland_df)
  /\ (forall crop_prices_df,
         snd (create_crop_prices_chart
                (snd (create_crop_prices_chart crop_prices_df)))
         = snd (create_crop_prices_chart crop_prices_df))
  /\ (forall index_df,
         price_index_filter (price_index_filter index_df)
         = price_index_filter index_df).
Proof.
  repeat split; intros; apply filter_twice.
Qed.

(** C10. The crop-prices view keeps exactly the rows whose commodity is
    WHEAT, CORN or SOYBEANS, in file order; the year of a row plays no
    part, so every year of those commodities survives; the function has
    no parameter through which a user could choose the commodities. *)
Theorem C10_crop_prices_fixed_commodities
    (crop_prices_df : list (CropPrices.row float)) :
  let view := snd (create_crop_prices_chart crop_prices_df) in
  view = filter (fun r => (CropPrices.Commodity r =? "WHEAT")
                          || (CropPrices.Commodity r =? "CORN")
                          || (CropPrices.Commodity r =? "SOYBEANS"))
                crop_prices_df
  /\ data_frame (fst (create_crop_prices_chart crop_prices_df)) = view
  /\ forall r,
       In r view <->
       In r crop_prices_df
       /\ (CropPrices.Commodity r = "WHEAT"
           \/ CropPrices.Commodity r = "CORN"
           \/ CropPrices.Commodity r = "SOYBEANS").
Proof.
  intros view. subst view. unfold create_crop_prices_chart. cbn [fst snd].
  split; [|split; [reflexivity|]].
  - apply filter_ext. intros r. unfold isin, commodities. cbn.
    now rewrite orb_false_r, orb_assoc.
  - intros r. rewrite filter_In, isin_In. unfold commodities. cbn.
    intuition congruence.
Qed.

(** *** Chart builder *)

(** C9, as the specification words it, fails on the code: the one
    reference line of the price-index figure is not labelled
    "Base Year (100)". *)
Lemma C9_label_counterexample :
  ~ (exists h,
        hlines (fst (create_price_index_chart Samples.index_duplicate)) = [h]
        /\ hline_y h = 100%Z
        /\ annotation_text h = "Base Year (100)").
Proof.
  intros (h & E & _ & L). cbn in E. inversion E; subst h.
  cbn in L. discriminate.
Qed.

(** C9, amended. Every price-index figure carries exactly one reference
    annotation: a dashed gray horizontal line at value 100 whose label is
    "2011 Base Year (100)". *)
Theorem C9_one_base_year_line (index_df : list (Index.row float)) :
  hlines (fst (create_price_index_chart index_df))
  = [ {| hline_y := 100; line_dash := "dash"; line_color := "gray";
         annotation_text := "2011 Base Year (100)" |} ].
Proof. reflexivity. Qed.

(** C4, as the specification words it, fails on the code: a chart type
    outside the three offered ones raises no configuration error; the
    call builds a bar chart. *)
Lemma C4_unsupported_kind_counterexample :
  ~ In "Pie Chart" chart_type_options
  /\ exists fig view,
       create_cropland_chart (lib := Samples.library)
         Samples.cropland_scenario ["KENTUCKY"; "OHIO"]
         (2020, 2021)%Z "Pie Chart" = Some (fig, view)
       /\ kind fig = Bar.
Proof.
  split.
  - cbn. intuition discriminate.
  - eexists. eexists. split; reflexivity.
Qed.

(** C4, amended. A chart-build call whose selection is not empty always
    yields a figure over the filtered view: a line chart for
    "Line Chart", an area chart for "Area Chart", and a bar chart for
    every other chart type, "Bar Chart" included; no chart type is
    rejected. *)
Theorem C4_chart_kind_else_bar {lib : Library}
    (cropland_df : list (Cropland.row float)) (selected_states : list string)
    (year_range : Z * Z) (chart_type : string) :
  cropland_filter selected_states year_range cropland_df <> [] ->
  exists fig,
    create_cropland_chart cropland_df selected_states year_range chart_type
    = Some (fig, map add_state_display
                     (cropland_filter selected_states year_range cropland_df))
    /\ data_frame fig
       = map add_state_display
             (cropland_filter selected_states year_range cropland_df)
    /\ (chart_type = "Line Chart" -> kind fig = Line)
    /\ (chart_type = "Area Chart" -> kind fig = Area)
    /\ (chart_type <> "Line Chart" -> chart_type <> "Area Chart" ->
        kind fig = Bar).
Proof.
  intros Hne. unfold create_cropland_chart.
  destruct (cropland_filter selected_states year_range cropland_df)
    as [|r rows]; [congruence|].
  eexists. split; [reflexivity|].
  destruct (chart_type =? "Line Chart") eqn:EL;
    [|destruct (chart_type =? "Area Chart") eqn:EA];
    cbn; (split; [reflexivity|]).
  - apply String.eqb_eq in EL. subst.
    repeat split; intros; try reflexivity; try discriminate; congruence.
  - apply String.eqb_eq in EA. subst.
    repeat split; intros; try reflexivity; try discriminate; congruence.
  - apply String.eqb_neq in EL, EA.
    repeat split; intros; try reflexivity; congruence.
Qed.

(** C4 (amended) at the scenario table, for an area chart. *)
Lemma C4_chart_kind_witness :
  cropland_filter ["KENTUCKY"; "OHIO"] (2020, 2021)%Z
    Samples.cropland_scenario <> []
  /\ exists fig,
       create_cropland_chart (lib := Samples.library)
         Samples.cropland_scenario ["KENTUCKY"; "OHIO"]
         (2020, 2021)%Z "Area Chart"
       = Some (fig, map (add_state_display (lib := Samples.library))
                        (cropland_filter ["KENTUCKY"; "OHIO"] (2020, 2021)%Z
                           Samples.cropland_scenario))
       /\ data_frame fig
          = map (add_state_display (lib := Samples.library))
                (cropland_filter ["KENTUCKY"; "OHIO"] (2020, 2021)%Z
                   Samples.cropland_scenario)
       /\ ("Area Chart" = "Line Chart" -> kind fig = Line)
       /\ ("Area Chart" = "Area Chart" -> kind fig = Area)
       /\ ("Area Chart" <> "Line Chart" -> "Area Chart" <> "Area Chart" ->
           kind fig = Bar).
Proof.
  assert (H : cropland_filter ["KENTUCKY"; "OHIO"] (2020, 2021)%Z
                Samples.cropland_scenario <> [])
    by (vm_compute; discriminate).
  split; [exact H|].
  exact (C4_chart_kind_else_bar (lib := Samples.library)
           Samples.cropland_scenario ["KENTUCKY"; "OHIO"] (2020, 2021)%Z
           "Area Chart" H).
Defined.

(** *** Aggregator: the current index *)

(** The code reads the first row of the view, whatever its year. *)
Lemma current_index_first_row (r : Index.row float)
    (rows : list (Index.row float)) :
  current_index (r :: rows) = Some (Index.Value r).
Proof. reflexivity. Qed.

(** On a view whose first row is at the latest year, the first row is the
    value Contract C asks for. *)
Lemma current_index_newest_first (r : Index.row float)
    (rows : list (Index.row float)) :
  Forall (fun r' => (Index.Year r' <= Index.Year r)%Z) rows ->
  current_index (r :: rows) = Contract.latest_single (r :: rows).
Proof.
  intros Hmax. unfold Contract.latest_single.
  destruct (series_max (map (@Index.Year float) (r :: rows))) as [m|] eqn:E;
    [|discriminate].
  apply series_max_spec in E. destruct E as [Hin Hall].
  assert (Em : Index.Year r = m).
  { inversion Hall as [|? ? Hr _]; subst. cbn in Hin.
    destruct Hin as [Hin|Hin]; [assumption|].
    apply in_map_iff in Hin. destruct Hin as (r' & Er' & Hr').
    rewrite Forall_forall in Hmax. specialize (Hmax r' Hr'). lia. }
  cbn. rewrite Em, Z.eqb_refl. cbn. reflexivity.
Qed.

(** C1. On an index table listed oldest year first, (2023, 90) then
    (2024, 100), the code reports 90, the value of the first row, where
    the value at the maximum period is 100.  On the duplicate-period
    scenario of the specification it reports 100, the first of the two
    rows at 2024. *)
Theorem C1_current_index_is_first_row :
  current_index (snd (create_price_index_chart Samples.index_oldest_first))
  = Some 90%float
  /\ Contract.latest_single
       (snd (create_price_index_chart Samples.index_oldest_first))
     = Some 100%float
  /\ current_index (snd (create_price_index_chart Samples.index_duplicate))
     = Some 100%float.
Proof. repeat split; reflexivity. Qed.

(** *** Value normalizer *)

Module LoadFacts.

Section WithLibrary.

Context {lib : Library}.

(** Under [errors='coerce'], [to_numeric] returns a column: cell by cell
    the normalised form of the column given, in one dtype. *)
Lemma to_numeric_coerce_spec (column : list cell) :
  exists values,
    to_numeric column errors_coerce = Some values
    /\ Forall2 (fun c v => Contract.normalised (cell_number c) v)
               column values
    /\ Contract.one_dtype values.
Proof.
  unfold to_numeric.
  destruct (forallb read_as_int (map cell_number column)) eqn:E.
  - eexists. split; [reflexivity|]. split.
    + induction column as [|c column IH]; cbn; [constructor|].
      cbn in E. apply andb_true_iff in E. destruct E as [Ec E].
      constructor; [|now apply IH].
      destruct (cell_number c) as [n|]; [now left | discriminate].
    + left. induction column as [|c column IH]; cbn; [constructor|].
      cbn in E. apply andb_true_iff in E. destruct E as [Ec E].
      constructor; [|now apply IH].
      destruct (cell_number c) as [[z|f]|]; try discriminate. now exists z.
  - eexists. split; [reflexivity|]. clear E. split.
    + induction column as [|c column IH]; cbn; constructor; [|assumption].
      destruct (cell_number c) as [n|]; [now right | reflexivity].
    + right. induction column as [|c column IH]; cbn; constructor;
        [|assumption].
      destruct (cell_number c) as [n|]; eexists; reflexivity.
Qed.

Lemma Forall2_length_eq {A B : Type} (P : A -> B -> Prop) (a : list A)
    (b : list B) :
  Forall2 P a b -> List.length a = List.length b.
Proof. induction 1; cbn; congruence. Qed.

Lemma Forall2_map_l {A B C : Type} (P : B -> C -> Prop) (g : A -> B)
    (a : list A) (c : list C) :
  Forall2 P (map g a) c -> Forall2 (fun x y => P (g x) y) a c.
Proof.
  revert c. induction a as [|x a IH]; intros c H; inversion H; subst;
    constructor; auto.
Qed.

Lemma cropland_with_values_columns (csv : list (Cropland.row cell))
    (values : list number) :
  List.length csv = List.length values ->
  map (@Cropland.State number) (cropland_with_values csv values)
  = map (@Cropland.State cell) csv
  /\ map (@Cropland.Year number) (cropland_with_values csv values)
     = map (@Cropland.Year cell) csv
  /\ map (@Cropland.Value number) (cropland_with_values csv values) = values.
Proof.
  unfold cropland_with_values. revert values.
  induction csv as [|r csv IH]; intros [|v values]; cbn; try discriminate;
    [auto|].
  intros E. destruct (IH values) as (H1 & H2 & H3); [now inversion E|].
  now rewrite H1, H2, H3.
Qed.

Lemma crop_prices_with_values_columns (csv : list (CropPrices.row cell))
    (values : list number) :
  List.length csv = List.length values ->
  map (@CropPrices.Commodity number) (crop_prices_with_values csv values)
  = map (@CropPrices.Commodity cell) csv
  /\ map (@CropPrices.Year number) (crop_prices_with_values csv values)
     = map (@CropPrices.Year cell) csv
  /\ map (@CropPrices.Value number) (crop_prices_with_values csv values)
     = values.
Proof.
  unfold crop_prices_with_values. revert values.
  induction csv as [|r csv IH]; intros [|v values]; cbn; try discriminate;
    [auto|].
  intros E. destruct (IH values) as (H1 & H2 & H3); [now inversion E|].
  now rewrite H1, H2, H3.
Qed.

Lemma index_with_values_columns (csv : list (Index.row cell))
    (values : list number) :
  List.length csv = List.length values ->
  map (@Index.Year number) (index_with_values csv values)
  = map (@Index.Year cell) csv
  /\ map (@Index.Value number) (index_with_values csv values) = values.
Proof.
  unfold index_with_values. revert values.
  induction csv as [|r csv IH]; intros [|v values]; cbn; try discriminate;
    [auto|].
  intros E. destruct (IH values) as (H1 & H2); [now inversion E|].
  now rewrite H1, H2.
Qed.

End WithLibrary.

End LoadFacts.

(** C8, as the specification words it, fails on the code: a numeric cell
    that holds an infinity stays an infinity in the loaded table, so the
    loaded value is neither a finite number nor missing.  The cell being
    numeric, the reading of texts plays no part. *)
Lemma C8_infinite_value_counterexample :
  exists r,
    load_crop_prices_data (lib := Samples.library) Samples.crop_csv_inf
    = Some [r]
    /\ number_is_finite (CropPrices.Value r) = false
    /\ number_isna (CropPrices.Value r) = false.
Proof. eexists. repeat split; reflexivity. Qed.

(** C8, amended. Whatever the table read from the file and however the
    library reads texts, each loader returns a table and raises nothing;
    the table has the rows of the file in their order, with the other
    columns untouched; its [Value] column has one dtype and holds, row by
    row, the normalised form of the cell of the file: the missing value
    where the cell (for the cropland table, its text without separators)
    is not a number, and else the number read, finite or not. *)
Theorem C8_normalize_total_keeps_rows {lib : Library} :
  (forall csv,
      exists df,
        load_cropland_data csv = Some df
        /\ map (@Cropland.State number) df = map (@Cropland.State cell) csv
        /\ map (@Cropland.Year number) df = map (@Cropland.Year cell) csv
        /\ Forall2 (fun r v =>
                      Contract.normalised
                        (parse_number
                           (str_remove "," (astype_str (Cropland.Value r))))
                        v)
                   csv (map (@Cropland.Value number) df)
        /\ Contract.one_dtype (map (@Cropland.Value number) df))
  /\ (forall csv,
         exists df,
           load_crop_prices_data csv = Some df
           /\ map (@CropPrices.Commodity number) df
              = map (@CropPrices.Commodity cell) csv
           /\ map (@CropPrices.Year number) df
              = map (@CropPrices.Year cell) csv
           /\ Forall2 (fun r v =>
                         Contract.normalised
                           (cell_number (CropPrices.Value r)) v)
                      csv (map (@CropPrices.Value number) df)
           /\ Contract.one_dtype (map (@CropPrices.Value number) df))
  /\ (forall csv,
         exists df,
           load_index_data csv = Some df
           /\ map (@Index.Year number) df = map (@Index.Year cell) csv
           /\ Forall2 (fun r v =>
                         Contract.normalised (cell_number (Index.Value r)) v)
                      csv (map (@Index.Value number) df)
           /\ Contract.one_dtype (map (@Index.Value number) df)).
Proof.
  split; [|split]; intros csv.
  - unfold load_cropland_data.
    destruct (LoadFacts.to_numeric_coerce_spec (cropland_value_texts csv))
      as (values & -> & Hall & Hdtype).
    apply LoadFacts.Forall2_map_l in Hall. cbn [cell_number] in Hall.
    pose proof (LoadFacts.Forall2_length_eq Hall) as Hlen.
    destruct (LoadFacts.cropland_with_values_columns csv values Hlen)
      as (H1 & H2 & H3).
    eexists. split; [reflexivity|]. cbn [option_map].
    rewrite H1, H2, H3. auto.
  - unfold load_crop_prices_data.
    destruct (LoadFacts.to_numeric_coerce_spec
                (map (@CropPrices.Value cell) csv))
      as (values & -> & Hall & Hdtype).
    apply LoadFacts.Forall2_map_l in Hall.
    pose proof (LoadFacts.Forall2_length_eq Hall) as Hlen.
    destruct (LoadFacts.crop_prices_with_values_columns csv values Hlen)
      as (H1 & H2 & H3).
    eexists. split; [reflexivity|]. cbn [option_map].
    rewrite H1, H2, H3. auto.
  - unfold load_index_data.
    destruct (LoadFacts.to_numeric_coerce_spec (map (@Index.Value cell) csv))
      as (values & -> & Hall & Hdtype).
    apply LoadFacts.Forall2_map_l in Hall.
    pose proof (LoadFacts.Forall2_length_eq Hall) as Hlen.
    destruct (LoadFacts.index_with_values_columns csv values Hlen)
      as (H1 & H2).
    eexists. split; [reflexivity|]. cbn [option_map].
    rewrite H1, H2. auto.
Qed.

(** *** Aggregator: summary statistics *)

Lemma summary_stats_In {lib : Library} (filtered_df : list CroplandView.row)
    (e : string) (row : summary_row) :
  In (e, row) (summary_stats filtered_df) <->
  In e (map CroplandView.State_Display filtered_df)
  /\ row = agg_mean_min_max_std (Contract.entity_values filtered_df e).
Proof. apply groupby_agg_In. Qed.

(** C2, as the specification words it, fails on the code: Ohio has the
    single value 150 in the scenario table, and the standard deviation
    reported for it is the float NaN that [std] yields, passed on by
    [round(0)]; the code has no missing marker other than this NaN. *)
Lemma C2_nan_reported_counterexample :
  exists row,
    In ("Ohio", row)
       (summary_stats (lib := Samples.library)
          (map (add_state_display (lib := Samples.library))
               Samples.cropland_scenario))
    /\ Contract.entity_values
         (map (add_state_display (lib := Samples.library))
              Samples.cropland_scenario) "Ohio"
       = [150%float]
    /\ Std_Dev row
       = round0 (std (lib := Samples.library) [150%float])
    /\ is_nan (Std_Dev row) = true.
Proof.
  eexists. split; [right; left; reflexivity|]. repeat split; reflexivity.
Qed.

(** C2, amended. An entity of the view with exactly one non-missing value
    has a summary row, and the standard deviation reported in it is NaN,
    the float that stands for a missing value in pandas: [std] yields it
    for a single value and [round(0)] passes it on unchanged; it is not
    zero and no error is raised. *)
Theorem C2_single_value_std_nan {lib : Library}
    (filtered_df : list CroplandView.row) (e : string) :
  List.length (dropna (Contract.entity_values filtered_df e)) = 1%nat ->
  (exists row, In (e, row) (summary_stats filtered_df))
  /\ std (Contract.entity_values filtered_df e) = nan
  /\ forall row,
       In (e, row) (summary_stats filtered_df) ->
       Std_Dev row = round0 (std (Contract.entity_values filtered_df e))
       /\ Std_Dev row = nan
       /\ isna (Std_Dev row) = true
       /\ is_zero (Std_Dev row) = false.
Proof.
  intros Hone.
  assert (Hin : In e (map CroplandView.State_Display filtered_df)).
  { unfold Contract.entity_values in Hone.
    destruct (filter (fun r => CroplandView.State_Display r =? e) filtered_df)
      as [|r rs] eqn:E; [discriminate|].
    assert (Hr : In r (filter (fun r => CroplandView.State_Display r =? e)
                              filtered_df)) by (rewrite E; now left).
    apply filter_In in Hr. destruct Hr as [Hr He].
    apply String.eqb_eq in He. subst e. now apply in_map. }
  assert (Hstd : std (Contract.entity_values filtered_df e) = nan).
  { unfold std. now rewrite Hone. }
  split; [|split; [exact Hstd|]].
  - eexists. apply summary_stats_In. split; [exact Hin | reflexivity].
  - intros row Hrow. apply summary_stats_In in Hrow.
    destruct Hrow as [_ ->]. cbn [Std_Dev agg_mean_min_max_std].
    rewrite Hstd. repeat split; reflexivity.
Qed.

(** C2 (amended) at the scenario table: Ohio has the single value 150. *)
Lemma C2_single_value_witness :
  List.length
    (dropna (Contract.entity_values
               (map (add_state_display (lib := Samples.library))
                    Samples.cropland_scenario) "Ohio"))
  = 1%nat
  /\ (exists row,
         In ("Ohio", row)
            (summary_stats (lib := Samples.library)
               (map (add_state_display (lib := Samples.library))
                    Samples.cropland_scenario)))
  /\ std (lib := Samples.library)
       (Contract.entity_values
          (map (add_state_display (lib := Samples.library))
               Samples.cropland_scenario) "Ohio") = nan
  /\ forall row,
       In ("Ohio", row)
          (summary_stats (lib := Samples.library)
             (map (add_state_display (lib := Samples.library))
                  Samples.cropland_scenario)) ->
       Std_Dev row
       = round0 (std (lib := Samples.library)
                   (Contract.entity_values
                      (map (add_state_display (lib := Samples.library))
                           Samples.cropland_scenario) "Ohio"))
       /\ Std_Dev row = nan
       /\ isna (Std_Dev row) = true
       /\ is_zero (Std_Dev row) = false.
Proof.
  split; [reflexivity|].
  apply (C2_single_value_std_nan (lib := Samples.library)
           (map (add_state_display (lib := Samples.library))
                Samples.cropland_scenario) "Ohio").
  reflexivity.
Defined.

(** C3, as the specification words it, fails on the code: a state whose
    only value is missing still gets a summary row, filled with missing
    values. *)
Lemma C3_all_missing_entity_counterexample :
  exists fig view,
    create_cropland_chart (lib := Samples.library) Samples.cropland_unparsed
      ["KENTUCKY"; "OHIO"] (2020, 2021)%Z "Line Chart" = Some (fig, view)
    /\ dropna (Contract.entity_values view "Kentucky") = []
    /\ In ("Kentucky",
           {| Average := nan; Minimum := nan; Maximum := nan;
              Std_Dev := nan |})
          (summary_stats (lib := Samples.library) view).
Proof.
  eexists. eexists. split; [reflexivity|].
  split; [reflexivity|]. left. reflexivity.
Qed.

(** C3, amended. The summary has exactly one row per distinct entity
    (display name) present in the view, whether or not the entity has a
    non-missing value; the row of an entity all of whose values are
    missing is present, with mean, minimum, maximum and standard
    deviation all missing. *)
Theorem C3_summary_row_per_entity_in_view {lib : Library}
    (filtered_df : list CroplandView.row) :
  NoDup (map fst (summary_stats filtered_df))
  /\ (forall e,
         In e (map fst (summary_stats filtered_df)) <->
         In e (map CroplandView.State_Display filtered_df))
  /\ (forall e,
         In e (map CroplandView.State_Display filtered_df) ->
         dropna (Contract.entity_values filtered_df e) = [] ->
         In (e, {| Average := nan; Minimum := nan; Maximum := nan;
                   Std_Dev := nan |})
            (summary_stats filtered_df)).
Proof.
  unfold summary_stats. rewrite groupby_agg_keys.
  split; [apply group_keys_NoDup|].
  split; [intros e; apply group_keys_In|].
  intros e Hin Hnone. apply groupby_agg_In. split; [assumption|].
  fold (Contract.entity_values filtered_df e).
  unfold agg_mean_min_max_std, mean, fmin, fmax, std.
  rewrite Hnone. reflexivity.
Qed.

(** C3 (amended) at a table where Kentucky has no value at all. *)
Lemma C3_summary_row_witness :
  In "Kentucky"
     (map CroplandView.State_Display
          (map (add_state_display (lib := Samples.library))
               Samples.cropland_unparsed))
  /\ dropna (Contract.entity_values
               (map (add_state_display (lib := Samples.library))
                    Samples.cropland_unparsed) "Kentucky") = []
  /\ In ("Kentucky",
         {| Average := nan; Minimum := nan; Maximum := nan; Std_Dev := nan |})
        (summary_stats (lib := Samples.library)
           (map (add_state_display (lib := Samples.library))
                Samples.cropland_unparsed)).
Proof.
  assert (Hin : In "Kentucky"
                   (map CroplandView.State_Display
                        (map (add_state_display (lib := Samples.library))
                             Samples.cropland_unparsed)))
    by (left; reflexivity).
  split; [exact Hin|]. split; [reflexivity|].
  exact (proj2 (proj2 (C3_summary_row_per_entity_in_view
                         (lib := Samples.library)
                         (map (add_state_display (lib := Samples.library))
                              Samples.cropland_unparsed)))
               "Kentucky" Hin eq_refl).
Defined.

(** *** Aggregator: latest prices *)

(** The rows the code keeps, [Year == Year.max()], are the rows at the
    view's maximum period. *)
Lemma latest_rows_at_max_period (crop_data : list (CropPrices.row float)) :
  filter (fun r =>
            match series_max (map (@CropPrices.Year float) crop_data) with
            | Some m => (CropPrices.Year r =? m)%Z
            | None => false
            end)
         crop_data
  = filter (Contract.at_max_period crop_data) crop_data.
Proof.
  apply filter_ext_in. intros r Hr. unfold Contract.at_max_period.
  destruct (series_max (map (@CropPrices.Year float) crop_data)) as [m|] eqn:E.
  - apply series_max_spec in E. destruct E as [Hin Hall].
    rewrite Forall_forall in Hall.
    apply in_map_iff in Hin. destruct Hin as (rm & Erm & Hrm).
    destruct (CropPrices.Year r =? m)%Z eqn:Em.
    + apply Z.eqb_eq in Em. symmetry. apply forallb_forall.
      intros r' Hr'. apply Z.leb_le. rewrite Em.
      apply Hall. now apply in_map.
    + symmetry. apply not_true_is_false. intros Hall'.
      rewrite forallb_forall in Hall'.
      specialize (Hall' rm Hrm). apply Z.leb_le in Hall'.
      assert (CropPrices.Year r <= m)%Z by (apply Hall; now apply in_map).
      apply Z.eqb_neq in Em. lia.
  - apply series_max_None in E. destruct crop_data; [destruct Hr | discriminate].
Qed.

(** The latest-prices table of two rows of one year and one price: the
    order of the two depends on the places the sort gives to positions 0
    and 1 of the key array, and on nothing else. *)
Lemma latest_prices_of_tie {lib : Library} (c0 c1 : string) :
  latest_prices [Samples.crop_row c0 2024 5; Samples.crop_row c1 2024 5]
  = if (tie_rank [5%float; 5%float] 1 <? tie_rank [5%float; 5%float] 0)%nat
    then [(c1, 5%float); (c0, 5%float)]
    else [(c0, 5%float); (c1, 5%float)].
Proof.
  unfold latest_prices, sort_values_desc, sort_desc, ranked.
  cbn -[Nat.ltb]. unfold goes_after. cbn -[Nat.ltb].
  destruct (tie_rank [5%float; 5%float] 1 <? tie_rank [5%float; 5%float] 0)%nat;
    reflexivity.
Qed.

(** C5, as the specification words it, fails on the code: ties are not
    broken by entity name.  Take WHEAT and CORN at the same latest price,
    in either file order: the sort sees the same keys in both tables and
    so arranges the two positions alike, whatever order it leaves equal
    keys in; in one of the two tables WHEAT then comes before CORN. *)
Lemma C5_tie_break_counterexample :
  ~ (exists lib : Library,
        Sorted (fun a b => Contract.value_desc a b
                           /\ Contract.name_tie_break a b)
               (latest_prices (lib := lib)
                  (snd (create_crop_prices_chart Samples.crop_tie)))
        /\ Sorted (fun a b => Contract.value_desc a b
                              /\ Contract.name_tie_break a b)
                  (latest_prices (lib := lib)
                     (snd (create_crop_prices_chart
                             Samples.crop_tie_swapped)))).
Proof.
  intros (lib & H1 & H2).
  change (snd (create_crop_prices_chart Samples.crop_tie))
    with [Samples.crop_row "WHEAT" 2024 5; Samples.crop_row "CORN" 2024 5]
    in H1.
  change (snd (create_crop_prices_chart Samples.crop_tie_swapped))
    with [Samples.crop_row "CORN" 2024 5; Samples.crop_row "WHEAT" 2024 5]
    in H2.
  rewrite latest_prices_of_tie in H1, H2.
  assert (Hbad : ~ Sorted (fun a b => Contract.value_desc a b
                                      /\ Contract.name_tie_break a b)
                          [("WHEAT", 5%float); ("CORN", 5%float)]).
  { intros Hs. inversion Hs as [|? ? _ Hd]; subst.
    inversion Hd as [|? ? [_ Ht]]; subst.
    specialize (Ht eq_refl). discriminate. }
  destruct (tie_rank [5%float; 5%float] 1 <? tie_rank [5%float; 5%float] 0)%nat;
    [exact (Hbad H2) | exact (Hbad H1)].
Qed.

Lemma filter_map_commute {A B : Type} (g : A -> B) (f : B -> bool)
    (l : list A) :
  filter f (map g l) = map g (filter (fun a => f (g a)) l).
Proof.
  induction l as [|a l IH]; cbn; [reflexivity|].
  destruct (f (g a)); cbn; now rewrite IH.
Qed.

(** Renaming the entities of a view renames the entries of its
    latest-prices table and leaves them where they are. *)
Lemma latest_prices_rename {lib : Library} (g : string -> string)
    (crop_data : list (CropPrices.row float)) :
  latest_prices (map (Contract.rename g) crop_data)
  = map (fun p => (g (fst p), snd p)) (latest_prices crop_data).
Proof.
  unfold latest_prices.
  assert (Ey : map (@CropPrices.Year float) (map (Contract.rename g) crop_data)
               = map (@CropPrices.Year float) crop_data)
    by (rewrite map_map; reflexivity).
  rewrite Ey, filter_map_commute, map_map. cbn [Contract.rename
    CropPrices.Year CropPrices.Commodity CropPrices.Value].
  rewrite <- (SortFacts.sort_values_desc_map (@snd string float)
                (fun p => (g (fst p), snd p)) (fun p => eq_refl)).
  now rewrite map_map.
Qed.

(** C5, amended. The latest-prices table holds the (entity, value) pairs
    at the view's maximum period, ordered by decreasing value with missing
    values last.  Entries of equal value are not put in name order: the
    order depends on the values only, so that renaming the entities leaves
    every entry at its place.  Being a function of the view, the order is
    the same on every call. *)
Theorem C5_latest_sorted_by_value_only {lib : Library}
    (crop_data : list (CropPrices.row float)) :
  Permutation (latest_prices crop_data) (Contract.latest_pairs crop_data)
  /\ StronglySorted Contract.value_desc (latest_prices crop_data)
  /\ forall g : string -> string,
       latest_prices (map (Contract.rename g) crop_data)
       = map (fun p => (g (fst p), snd p)) (latest_prices crop_data).
Proof.
  split; [|split].
  - unfold latest_prices, Contract.latest_pairs.
    rewrite latest_rows_at_max_period.
    apply SortFacts.sort_values_desc_perm.
  - apply (SortFacts.sort_values_desc_sorted (@snd string float)).
  - intros g. apply latest_prices_rename.
Qed.

(** ** Further properties of the code *)

(** *** The cropland selection *)

Lemma cropland_filter_In (selected_states : list string) (year_range : Z * Z)
    (cropland_df : list (Cropland.row float)) (r : Cropland.row float) :
  In r (cropland_filter selected_states year_range cropland_df) <->
  In r cropland_df
  /\ In (Cropland.State r) selected_states
  /\ (fst year_range <= Cropland.Year r <= snd year_range)%Z.
Proof.
  unfold cropland_filter. rewrite filter_In, !andb_true_iff, isin_In.
  rewrite !Z.leb_le. tauto.
Qed.

(** X1. [create_cropland_chart] answers [(None, None)] exactly when no row
    of the table has both a selected state and a year inside the range,
    both ends included; with no state selected this is always the case. *)
Theorem X1_no_chart_iff_nothing_selected {lib : Library}
    (cropland_df : list (Cropland.row float)) (selected_states : list string)
    (year_range : Z * Z) (chart_type : string) :
  (create_cropland_chart cropland_df selected_states year_range chart_type
   = None
   <-> forall r, In r cropland_df ->
                 ~ (In (Cropland.State r) selected_states
                    /\ (fst year_range <= Cropland.Year r
                        <= snd year_range)%Z))
  /\ create_cropland_chart cropland_df [] year_range chart_type = None.
Proof.
  assert (Hiff : forall states,
    create_cropland_chart cropland_df states year_range chart_type = None
    <-> forall r, In r cropland_df ->
                  ~ (In (Cropland.State r) states
                     /\ (fst year_range <= Cropland.Year r
                         <= snd year_range)%Z)).
  { intros states. unfold create_cropland_chart.
    destruct (cropland_filter states year_range cropland_df)
      as [|r0 rows] eqn:E.
    - split; [|reflexivity]. intros _ r Hr Hsel.
      assert (Hin : In r (cropland_filter states year_range cropland_df))
        by (apply cropland_filter_In; tauto).
      rewrite E in Hin. destruct Hin.
    - split; [discriminate|]. intros Hnone. exfalso.
      assert (Hin : In r0 (cropland_filter states year_range cropland_df))
        by (rewrite E; now left).
      apply cropland_filter_In in Hin. destruct Hin as (Hr & Hs & Hy).
      apply (Hnone r0 Hr). tauto. }
  split; [apply Hiff|].
  apply Hiff. intros r _ [[] _].
Qed.

(** X2. When [create_cropland_chart] returns a figure and a frame, the
    frame is not empty and is the one the figure plots; each of its rows is
    a row of the table, in table order, with its state, year and value
    unchanged, a state among the selected ones, a year inside the range,
    and the title-cased state as display name. *)
Theorem X2_chart_frame_rows {lib : Library}
    (cropland_df : list (Cropland.row float)) (selected_states : list string)
    (year_range : Z * Z) (chart_type : string)
    (fig : figure CroplandView.row) (filtered_df : list CroplandView.row) :
  create_cropland_chart cropland_df selected_states year_range chart_type
  = Some (fig, filtered_df) ->
  filtered_df <> []
  /\ data_frame fig = filtered_df
  /\ filtered_df
     = map add_state_display
           (cropland_filter selected_states year_range cropland_df)
  /\ forall v, In v filtered_df ->
       In {| Cropland.State := CroplandView.State v;
             Cropland.Year := CroplandView.Year v;
             Cropland.Value := CroplandView.Value v |} cropland_df
       /\ In (CroplandView.State v) selected_states
       /\ (fst year_range <= CroplandView.Year v <= snd year_range)%Z
       /\ CroplandView.State_Display v = title (CroplandView.State v).
Proof.
  unfold create_cropland_chart.
  destruct (cropland_filter selected_states year_range cropland_df)
    as [|r0 rows] eqn:E; [discriminate|].
  intros H. inversion H as [[Hfig Hdf]]. clear H.
  split; [discriminate|].
  split; [now destruct (chart_type =? "Line Chart"),
                       (chart_type =? "Area Chart")|].
  split; [reflexivity|].
  intros v Hv. apply (in_map_iff add_state_display (r0 :: rows)) in Hv.
  destruct Hv as (r & <- & Hr).
  rewrite <- E in Hr. apply cropland_filter_In in Hr.
  destruct Hr as (Hr & Hs & Hy). destruct r as [s yr val]. cbn in *.
  repeat split; tauto.
Qed.

(** X2 on the scenario table, as a line chart over 2020-2021. *)
Lemma X2_chart_frame_rows_witness :
  exists fig filtered_df,
    create_cropland_chart (lib := Samples.library) Samples.cropland_scenario ["KENTUCKY"; "OHIO"]
      (2020, 2021)%Z "Line Chart" = Some (fig, filtered_df)
    /\ filtered_df <> []
    /\ data_frame fig = filtered_df.
Proof.
  eexists. eexists.
  assert (H : create_cropland_chart (lib := Samples.library) Samples.cropland_scenario
                ["KENTUCKY"; "OHIO"] (2020, 2021)%Z "Line Chart"
              = Some (_, _)) by reflexivity.
  split; [exact H|].
  destruct (X2_chart_frame_rows (lib := Samples.library) _ _ _ _ H) as (Hne & Hfig & _).
  split; assumption.
Defined.

(** X3. Two selections applied one after the other keep the rows that
    both keep, whatever the order: the result is the single selection of
    the states common to both lists over the intersection of the two year
    ranges. *)
Theorem X3_selections_compose
    (states1 states2 : list string) (range1 range2 : Z * Z)
    (cropland_df : list (Cropland.row float)) :
  cropland_filter states1 range1 (cropland_filter states2 range2 cropland_df)
  = cropland_filter (filter (fun s => isin s states2) states1)
      (Z.max (fst range1) (fst range2), Z.min (snd range1) (snd range2))
      cropland_df
  /\ cropland_filter states1 range1
       (cropland_filter states2 range2 cropland_df)
     = cropland_filter states2 range2
         (cropland_filter states1 range1 cropland_df).
Proof.
  unfold cropland_filter. rewrite !filter_filter. split.
  - apply filter_ext. intros r. cbn [fst snd].
    assert (Hs : isin (Cropland.State r)
                      (filter (fun s => isin s states2) states1)
                 = isin (Cropland.State r) states1
                   && isin (Cropland.State r) states2).
    { apply eq_true_iff_eq. rewrite andb_true_iff, !isin_In, filter_In.
      rewrite isin_In. tauto. }
    rewrite Hs.
    destruct (isin (Cropland.State r) states1),
             (isin (Cropland.State r) states2); cbn [andb];
      rewrite ?andb_false_r; try reflexivity.
    apply eq_true_iff_eq. rewrite !andb_true_iff, !Z.leb_le. lia.
  - apply filter_ext. intros r. apply eq_true_iff_eq.
    rewrite !andb_true_iff. tauto.
Qed.

(** X4. Narrowing a view gives the narrow view: selecting fewer states
    and a year range inside the first one, out of an already filtered
    frame, is the same as making the narrow selection on the table. *)
Theorem X4_narrowing_a_view
    (wide narrow : list string) (wide_range narrow_range : Z * Z)
    (cropland_df : list (Cropland.row float)) :
  incl narrow wide ->
  (fst wide_range <= fst narrow_range)%Z ->
  (snd narrow_range <= snd wide_range)%Z ->
  cropland_filter narrow narrow_range
    (cropland_filter wide wide_range cropland_df)
  = cropland_filter narrow narrow_range cropland_df.
Proof.
  intros Hincl Hlo Hhi. unfold cropland_filter. rewrite filter_filter.
  apply filter_ext. intros r.
  destruct (isin (Cropland.State r) narrow) eqn:En;
    [|now rewrite andb_false_r].
  assert (Ew : isin (Cropland.State r) wide = true).
  { apply isin_In. apply Hincl. now apply isin_In. }
  rewrite Ew. cbn [andb].
  destruct (fst narrow_range <=? Cropland.Year r)%Z eqn:E1;
    [|now rewrite andb_false_r].
  destruct (Cropland.Year r <=? snd narrow_range)%Z eqn:E2;
    [|now rewrite andb_false_r].
  apply Z.leb_le in E1, E2. cbn [andb].
  rewrite andb_true_r, andb_true_iff, !Z.leb_le. lia.
Qed.

(** X4 on the scenario table: Kentucky in 2021 out of both states in
    2020-2021. *)
Lemma X4_narrowing_a_view_witness :
  incl ["KENTUCKY"] ["KENTUCKY"; "OHIO"]
  /\ (fst (2020, 2021) <= fst (2021, 2021))%Z
  /\ (snd (2021, 2021) <= snd (2020, 2021))%Z
  /\ cropland_filter ["KENTUCKY"] (2021, 2021)%Z
       (cropland_filter ["KENTUCKY"; "OHIO"] (2020, 2021)%Z
          Samples.cropland_scenario)
     = cropland_filter ["KENTUCKY"] (2021, 2021)%Z Samples.cropland_scenario.
Proof.
  assert (Hincl : incl ["KENTUCKY"] ["KENTUCKY"; "OHIO"])
    by (intros s [<-|[]]; now left).
  assert (Hlo : (fst (2020, 2021) <= fst (2021, 2021))%Z) by (cbn; lia).
  assert (Hhi : (snd (2021, 2021) <= snd (2020, 2021))%Z) by (cbn; lia).
  split; [exact Hincl|]. split; [exact Hlo|]. split; [exact Hhi|].
  exact (@X4_narrowing_a_view _ _ _ _ Samples.cropland_scenario
           Hincl Hlo Hhi).
Defined.

(** *** The summary table *)

Module KeyFacts.

Import Texts.

Lemma insert_key_HdRel (k a : string) (l : list string) :
  key_le a k -> HdRel key_le a l -> HdRel key_le a (insert_key k l).
Proof.
  intros Hak Hal. destruct l as [|h t]; cbn; [now constructor|].
  destruct (String.leb k h); constructor; [assumption|].
  now inversion Hal.
Qed.

Lemma insert_key_sorted (k : string) (l : list string) :
  Sorted key_le l -> Sorted key_le (insert_key k l).
Proof.
  induction 1 as [|h t Hs IH Hh]; cbn; [repeat constructor|].
  destruct (String.leb k h) eqn:E.
  - constructor; [now constructor | now constructor].
  - constructor; [assumption|]. apply insert_key_HdRel; [|assumption].
    destruct (String.leb_total h k) as [H|H]; [exact H | congruence].
Qed.

Lemma sort_keys_sorted (l : list string) : Sorted key_le (sort_keys l).
Proof.
  induction l as [|k l IH]; cbn; [constructor|].
  now apply insert_key_sorted.
Qed.

Lemma le_neq_lt (a b : string) : key_le a b -> a <> b -> key_lt a b.
Proof.
  unfold key_le, key_lt, String.leb, String.ltb. intros Hle Hne.
  destruct (String.compare a b) eqn:E; try reflexivity; try discriminate.
  apply String.compare_eq_iff in E. contradiction.
Qed.

Lemma sorted_nodup_strict (l : list string) :
  Sorted key_le l -> NoDup l -> Sorted key_lt l.
Proof.
  induction 1 as [|a l Hs IH Ha]; intros Hnd; [constructor|].
  inversion Hnd as [|? ? Hnotin Hnd']; subst.
  constructor; [now apply IH|].
  destruct Ha as [|b l Hab]; constructor.
  apply le_neq_lt; [assumption|]. intros ->. apply Hnotin. now left.
Qed.

Lemma group_keys_strictly_sorted (l : list string) :
  Sorted key_lt (group_keys l).
Proof.
  apply sorted_nodup_strict; [apply sort_keys_sorted|].
  apply group_keys_NoDup.
Qed.

Lemma sorted_map_fst {B : Type} (g : string -> B) (l : list string) :
  Sorted key_lt l ->
  Sorted (fun a b : string * B => String.ltb (fst a) (fst b) = true)
         (map (fun k => (k, g k)) l).
Proof.
  induction 1 as [|a l Hs IH Ha]; cbn; [constructor|].
  constructor; [assumption|]. destruct Ha; cbn; now constructor.
Qed.

End KeyFacts.

(** X6. The summary table lists its rows in strictly ascending order of
    display name (by character code), so no name comes twice, and it has
    no more rows than the view it summarizes. *)
Theorem X6_summary_rows_ascending {lib : Library} (filtered_df : list CroplandView.row) :
  Sorted (fun a b => String.ltb (fst a) (fst b) = true)
         (summary_stats filtered_df)
  /\ (List.length (summary_stats filtered_df) <= List.length filtered_df)%nat.
Proof.
  split.
  - unfold summary_stats, groupby_agg.
    apply (KeyFacts.sorted_map_fst
             (fun k => agg_mean_min_max_std
                         (map CroplandView.Value
                              (filter (fun r => CroplandView.State_Display r =? k)
                                      filtered_df)))).
    apply KeyFacts.group_keys_strictly_sorted.
  - rewrite <- (length_map fst (summary_stats filtered_df)).
    unfold summary_stats. rewrite groupby_agg_keys.
    rewrite <- (length_map CroplandView.State_Display filtered_df).
    apply NoDup_incl_length; [apply group_keys_NoDup|].
    intros k Hk. now apply group_keys_In.
Qed.

(** *** The cropland section *)

(** X7. The cropland section warns "Please select at least one state."
    exactly when no state is selected, and "No data available for selected
    filters." exactly when states are selected but the selection keeps no
    row; otherwise it shows a chart with a summary of at least one row and
    at most one row per selected state, each row named after a selected
    state in title case. *)
Theorem X7_cropland_section_outcomes {lib : Library}
    (cropland_df : list (Cropland.row float)) (selected_states : list string)
    (year_range : Z * Z) (chart_type : string) :
  let panel :=
    Page.cropland_section cropland_df selected_states year_range chart_type in
  (panel = Page.Warning "Please select at least one state."
   <-> selected_states = [])
  /\ (panel = Page.Warning "No data available for selected filters."
      <-> selected_states <> []
          /\ cropland_filter selected_states year_range cropland_df = [])
  /\ forall fig summary,
       panel = Page.Chart_with_summary fig summary ->
       (1 <= List.length summary <= List.length selected_states)%nat
       /\ forall e row, In (e, row) summary ->
            exists s, In s selected_states /\ e = title s.
Proof.
  intros panel. subst panel. unfold Page.cropland_section.
  destruct selected_states as [|s0 states].
  { split; [tauto|]. split; [|discriminate].
    split; [discriminate | tauto]. }
  set (selected := s0 :: states).
  unfold create_cropland_chart.
  destruct (cropland_filter selected year_range cropland_df)
    as [|r0 rows] eqn:E.
  { split; [split; discriminate|]. split; [|discriminate].
    split; [intros _; split; [discriminate | reflexivity] | reflexivity]. }
  split; [split; discriminate|].
  split; [split; [discriminate | intros [_ H]; discriminate]|].
  intros fig summary H. inversion H as [[Hfig Hsum]]. clear H Hfig Hsum.
  set (view := map add_state_display (r0 :: rows)) in *.
  change (add_state_display r0 :: map add_state_display rows) with view.
  assert (Hkeys : forall e, In e (map fst (summary_stats view)) ->
                            exists s, In s selected /\ e = title s).
  { intros e He. unfold summary_stats in He.
    rewrite groupby_agg_keys in He.
    apply (proj1 (group_keys_In _ _)) in He.
    apply in_map_iff in He. destruct He as (v & <- & Hv).
    apply in_map_iff in Hv. destruct Hv as (r & <- & Hr).
    rewrite <- E in Hr. apply cropland_filter_In in Hr.
    exists (Cropland.State r). split; [tauto | reflexivity]. }
  split; [split|].
  - assert (Hin : In (title (Cropland.State r0))
                     (map fst (summary_stats view))).
    { unfold summary_stats. rewrite groupby_agg_keys.
      apply group_keys_In. left. reflexivity. }
    rewrite <- (length_map fst). destruct (map fst (summary_stats view));
      [destruct Hin | cbn; lia].
  - rewrite <- (length_map fst), <- (length_map title selected).
    apply NoDup_incl_length.
    + unfold summary_stats. rewrite groupby_agg_keys. apply group_keys_NoDup.
    + intros e He. destruct (Hkeys e He) as (s & Hs & ->). now apply in_map.
  - intros e row Hrow. apply Hkeys.
    change e with (fst (e, row)). now apply in_map.
Qed.

(** X7 on the scenario table, with both states selected. *)
Lemma X7_cropland_section_witness :
  exists fig summary,
    Page.cropland_section (lib := Samples.library) Samples.cropland_scenario ["KENTUCKY"; "OHIO"]
      (2020, 2021)%Z "Bar Chart" = Page.Chart_with_summary fig summary
    /\ (1 <= List.length summary <= 2)%nat.
Proof.
  eexists. eexists.
  assert (H : Page.cropland_section (lib := Samples.library) Samples.cropland_scenario
                ["KENTUCKY"; "OHIO"] (2020, 2021)%Z "Bar Chart"
              = Page.Chart_with_summary _ _) by reflexivity.
  split; [exact H|].
  exact (proj1 (proj2 (proj2 (X7_cropland_section_outcomes (lib := Samples.library)
                                Samples.cropland_scenario
                                ["KENTUCKY"; "OHIO"] (2020, 2021)%Z
                                "Bar Chart")) _ _ H)).
Defined.

(** *** Loading and selecting *)

Lemma str_remove_twice (old : ascii) (s : string) :
  str_remove old (str_remove old s) = str_remove old s.
Proof.
  induction s as [|c s IH]; cbn; [reflexivity|].
  destruct (Ascii.eqb c old) eqn:E; [assumption|].
  cbn. now rewrite E, IH.
Qed.

(** X14. Thousands separators in a text cell of the cropland table have
    no effect on the loaded table: the table loads the same with the
    commas of its text cells taken out beforehand. *)
Theorem X14_separators_do_not_matter {lib : Library}
    (csv : list (Cropland.row cell)) :
  load_cropland_data
    (map (fun r => {| Cropland.State := Cropland.State r;
                      Cropland.Year := Cropland.Year r;
                      Cropland.Value :=
                        Texts.without_separators (Cropland.Value r) |})
         csv)
  = load_cropland_data csv.
Proof.
  unfold load_cropland_data.
  assert (Et : forall l : list (Cropland.row cell),
    cropland_value_texts
      (map (fun r => {| Cropland.State := Cropland.State r;
                        Cropland.Year := Cropland.Year r;
                        Cropland.Value :=
                          Texts.without_separators (Cropland.Value r) |})
           l)
    = cropland_value_texts l).
  { intros l. unfold cropland_value_texts. rewrite map_map. apply map_ext.
    intros [s yr [t|n]]; cbn; [|reflexivity].
    now rewrite str_remove_twice. }
  assert (Ev : forall (l : list (Cropland.row cell)) values,
    cropland_with_values
      (map (fun r => {| Cropland.State := Cropland.State r;
                        Cropland.Year := Cropland.Year r;
                        Cropland.Value :=
                          Texts.without_separators (Cropland.Value r) |})
           l) values
    = cropland_with_values l values).
  { unfold cropland_with_values.
    induction l as [|r l IH]; intros [|v values]; cbn; try reflexivity.
    now rewrite IH. }
  rewrite Et.
  destruct (to_numeric (cropland_value_texts csv) errors_coerce);
    cbn; [now rewrite Ev | reflexivity].
Qed.

(** *** Minimum and maximum of the values present *)

Module ExtremeFacts.

Import FloatOrder FloatFacts.

Lemma leb_refl (x : float) : is_nan x = false -> (x <=? x)%float = true.
Proof.
  rewrite is_nan_key, leb_key. destruct (fkey x) as [a|]; [|discriminate].
  now rewrite lex3_refl.
Qed.

Lemma dropna_present (l : list float) :
  Forall (fun v => is_nan v = false) (dropna l).
Proof.
  rewrite Forall_forall. intros v Hv. apply filter_In in Hv.
  destruct Hv as [_ Hv]. unfold isna in Hv. now destruct (is_nan v).
Qed.

Lemma fold_fmin_spec (vs : list float) (v : float) :
  is_nan v = false -> Forall (fun y => is_nan y = false) vs ->
  In (fold_left (fun m x => if (x <? m)%float then x else m) vs v) (v :: vs)
  /\ Forall (fun y =>
               (fold_left (fun m x => if (x <? m)%float then x else m) vs v
                <=? y)%float = true)
            (v :: vs).
Proof.
  revert v. induction vs as [|a vs IH]; intros v Hv Hvs; cbn [fold_left].
  - split; [now left|]. constructor; [now apply leb_refl | constructor].
  - inversion Hvs as [|? ? Ha Hvs']; subst.
    set (m := if (a <? v)%float then a else v).
    assert (Hm : is_nan m = false) by (unfold m; now destruct (a <? v)%float).
    destruct (IH m Hm Hvs') as [Hin Hall].
    set (r := fold_left (fun m x => if (x <? m)%float then x else m) vs m) in *.
    inversion Hall as [|? ? Hrm Hrest]; subst. split.
    + destruct Hin as [Hin|Hin]; [|now right; right].
      rewrite <- Hin. unfold m. destruct (a <? v)%float; cbn; auto.
    + assert (Hrv : (r <=? v)%float = true /\ (r <=? a)%float = true).
      { unfold m in Hrm. destruct (a <? v)%float eqn:E.
        - split; [|assumption].
          apply leb_trans with a; [assumption | now apply ltb_leb].
        - split; [assumption|].
          apply leb_trans with v; [assumption | now apply not_ltb_leb]. }
      constructor; [tauto|]. constructor; [tauto | assumption].
Qed.

Lemma fold_fmax_spec (vs : list float) (v : float) :
  is_nan v = false -> Forall (fun y => is_nan y = false) vs ->
  In (fold_left (fun m x => if (m <? x)%float then x else m) vs v) (v :: vs)
  /\ Forall (fun y =>
               (y <=?
                fold_left (fun m x => if (m <? x)%float then x else m) vs v)
               %float = true)
            (v :: vs).
Proof.
  revert v. induction vs as [|a vs IH]; intros v Hv Hvs; cbn [fold_left].
  - split; [now left|]. constructor; [now apply leb_refl | constructor].
  - inversion Hvs as [|? ? Ha Hvs']; subst.
    set (m := if (v <? a)%float then a else v).
    assert (Hm : is_nan m = false) by (unfold m; now destruct (v <? a)%float).
    destruct (IH m Hm Hvs') as [Hin Hall].
    set (r := fold_left (fun m x => if (m <? x)%float then x else m) vs m) in *.
    inversion Hall as [|? ? Hrm Hrest]; subst. split.
    + destruct Hin as [Hin|Hin]; [|now right; right].
      rewrite <- Hin. unfold m. destruct (v <? a)%float; cbn; auto.
    + assert (Hrv : (v <=? r)%float = true /\ (a <=? r)%float = true).
      { unfold m in Hrm. destruct (v <? a)%float eqn:E.
        - split; [|assumption].
          apply leb_trans with a; [now apply ltb_leb | assumption].
        - split; [assumption|].
          apply leb_trans with v; [now apply not_ltb_leb | assumption]. }
      constructor; [tauto|]. constructor; [tauto | assumption].
Qed.

(** The minimum of a column with a value present is the least of the
    values present. *)
Lemma fmin_spec (l : list float) :
  dropna l <> [] ->
  In (fmin l) (dropna l)
  /\ forall v, In v (dropna l) -> (fmin l <=? v)%float = true.
Proof.
  intros Hne. unfold fmin. pose proof (dropna_present l) as Hp.
  destruct (dropna l) as [|v vs]; [congruence|].
  inversion Hp as [|? ? Hv Hvs]; subst.
  destruct (@fold_fmin_spec vs v Hv Hvs) as [Hin Hall].
  split; [assumption|]. now rewrite Forall_forall in Hall.
Qed.

Lemma fmax_spec (l : list float) :
  dropna l <> [] ->
  In (fmax l) (dropna l)
  /\ forall v, In v (dropna l) -> (v <=? fmax l)%float = true.
Proof.
  intros Hne. unfold fmax. pose proof (dropna_present l) as Hp.
  destruct (dropna l) as [|v vs]; [congruence|].
  inversion Hp as [|? ? Hv Hvs]; subst.
  destruct (@fold_fmax_spec vs v Hv Hvs) as [Hin Hall].
  split; [assumption|]. now rewrite Forall_forall in Hall.
Qed.

Lemma dropna_In (l : list float) (v : float) :
  In v (dropna l) <-> In v l /\ isna v = false.
Proof.
  unfold dropna. rewrite filter_In. now destruct (isna v).
Qed.

End ExtremeFacts.

(** X12. For an entity with at least one value present, the minimum and
    the maximum of its summary row are the roundings of two of its values:
    the least and the greatest of the values present. *)
Theorem X12_summary_extremes {lib : Library}
    (filtered_df : list CroplandView.row) (e : string) (row : summary_row) :
  In (e, row) (summary_stats filtered_df) ->
  dropna (Contract.entity_values filtered_df e) <> [] ->
  exists lo hi,
    In lo (Contract.entity_values filtered_df e)
    /\ In hi (Contract.entity_values filtered_df e)
    /\ Minimum row = round0 lo
    /\ Maximum row = round0 hi
    /\ forall v, In v (Contract.entity_values filtered_df e) ->
                 isna v = false ->
                 (lo <=? v)%float = true /\ (v <=? hi)%float = true.
Proof.
  intros Hrow Hne. apply summary_stats_In in Hrow. destruct Hrow as [_ ->].
  destruct (@ExtremeFacts.fmin_spec _ Hne) as [Hlo Hmin].
  destruct (@ExtremeFacts.fmax_spec _ Hne) as [Hhi Hmax].
  exists (fmin (Contract.entity_values filtered_df e)),
         (fmax (Contract.entity_values filtered_df e)).
  apply ExtremeFacts.dropna_In in Hlo, Hhi.
  repeat split; try tauto.
  - apply Hmin. now apply ExtremeFacts.dropna_In.
  - apply Hmax. now apply ExtremeFacts.dropna_In.
Qed.

(** X12 on the scenario table, for Kentucky. *)
Lemma X12_summary_extremes_witness :
  In ("Kentucky",
      {| Average := 150; Minimum := 100; Maximum := 200; Std_Dev := 71 |})
     (summary_stats (lib := Samples.library) (map (add_state_display (lib := Samples.library)) Samples.cropland_scenario))
  /\ dropna (Contract.entity_values
               (map (add_state_display (lib := Samples.library)) Samples.cropland_scenario) "Kentucky")
     <> []
  /\ exists lo hi,
       In lo (Contract.entity_values
                (map (add_state_display (lib := Samples.library)) Samples.cropland_scenario) "Kentucky")
       /\ In hi (Contract.entity_values
                   (map (add_state_display (lib := Samples.library)) Samples.cropland_scenario)
                   "Kentucky")
       /\ 100%float = round0 lo
       /\ 200%float = round0 hi
       /\ forall v,
            In v (Contract.entity_values
                    (map (add_state_display (lib := Samples.library)) Samples.cropland_scenario)
                    "Kentucky") ->
            isna v = false ->
            (lo <=? v)%float = true /\ (v <=? hi)%float = true.
Proof.
  assert (Hrow : In ("Kentucky",
                     {| Average := 150; Minimum := 100; Maximum := 200;
                        Std_Dev := 71 |})
                    (summary_stats (lib := Samples.library)
                       (map (add_state_display (lib := Samples.library)) Samples.cropland_scenario)))
    by (left; reflexivity).
  assert (Hne : dropna (Contract.entity_values
                          (map (add_state_display (lib := Samples.library)) Samples.cropland_scenario)
                          "Kentucky") <> [])
    by (vm_compute; discriminate).
  split; [exact Hrow|]. split; [exact Hne|].
  exact (@X12_summary_extremes Samples.library _ _ _ Hrow Hne).
Defined.

(** *** The crop-prices section *)

(** X8. The latest-prices table of the crop-prices section is empty
    exactly when the table has no WHEAT, CORN or SOYBEANS row.  Each of
    its entries is the commodity and value of such a row, whose year no
    row of these three commodities exceeds: the latest year is taken among
    the kept rows, not over the whole table. *)
Theorem X8_latest_prices_of_section {lib : Library}
    (crop_prices_df : list (CropPrices.row float)) :
  (snd (Page.crop_prices_section crop_prices_df) = []
   <-> forall r, In r crop_prices_df ->
                 ~ In (CropPrices.Commodity r) ["WHEAT"; "CORN"; "SOYBEANS"])
  /\ forall c v,
       In (c, v) (snd (Page.crop_prices_section crop_prices_df)) ->
       In c ["WHEAT"; "CORN"; "SOYBEANS"]
       /\ exists r,
            In r crop_prices_df
            /\ CropPrices.Commodity r = c
            /\ CropPrices.Value r = v
            /\ forall r',
                 In r' crop_prices_df ->
                 In (CropPrices.Commodity r') ["WHEAT"; "CORN"; "SOYBEANS"] ->
                 (CropPrices.Year r' <= CropPrices.Year r)%Z.
Proof.
  unfold Page.crop_prices_section, create_crop_prices_chart. cbn [snd].
  set (view := filter (fun r => isin (CropPrices.Commodity r) commodities)
                      crop_prices_df).
  assert (Hview : forall r, In r view <->
                            In r crop_prices_df
                            /\ In (CropPrices.Commodity r)
                                  ["WHEAT"; "CORN"; "SOYBEANS"]).
  { intros r. unfold view. rewrite filter_In, isin_In. reflexivity. }
  assert (Hperm : Permutation (latest_prices view)
                              (Contract.latest_pairs view)).
  { unfold latest_prices, Contract.latest_pairs.
    rewrite latest_rows_at_max_period.
    apply SortFacts.sort_values_desc_perm. }
  split.
  - split.
    + intros Hnil r Hr Hc.
      assert (Hrv : In r view) by (apply Hview; tauto).
      destruct (series_max (map (@CropPrices.Year float) view))
        as [m|] eqn:Em.
      * apply series_max_spec in Em. destruct Em as [Hm Hall].
        apply in_map_iff in Hm. destruct Hm as (rm & Erm & Hrm).
        assert (Hin : In (CropPrices.Commodity rm, CropPrices.Value rm)
                         (Contract.latest_pairs view)).
        { unfold Contract.latest_pairs.
          apply (in_map (fun r => (CropPrices.Commodity r,
                                   CropPrices.Value r))).
          apply filter_In. split; [assumption|].
          unfold Contract.at_max_period. apply forallb_forall.
          intros r' Hr'. apply Z.leb_le. rewrite Erm.
          rewrite Forall_forall in Hall. apply Hall. now apply in_map. }
        apply (Permutation_in _ (Permutation_sym Hperm)) in Hin.
        rewrite Hnil in Hin. destruct Hin.
      * apply series_max_None in Em.
        destruct view; [destruct Hrv | discriminate].
    + intros Hnone.
      assert (E : view = []).
      { destruct view as [|r rs]; [reflexivity|]. exfalso.
        destruct (proj1 (Hview r) (or_introl eq_refl)) as [Hr Hc].
        now apply (Hnone r). }
      rewrite E. reflexivity.
  - intros c v Hin. apply (Permutation_in _ Hperm) in Hin.
    unfold Contract.latest_pairs in Hin. apply in_map_iff in Hin.
    destruct Hin as (r & Er & Hr). inversion Er; subst. clear Er.
    apply filter_In in Hr. destruct Hr as [Hr Hmax].
    apply Hview in Hr. split; [tauto|].
    exists r. repeat split; try tauto.
    intros r' Hr' Hc'. unfold Contract.at_max_period in Hmax.
    rewrite forallb_forall in Hmax. apply Z.leb_le. apply Hmax.
    apply Hview. tauto.
Qed.

(** *** The price-index section *)

Lemma filter_head_split {A : Type} (f : A -> bool) (l : list A) (x : A)
    (rest : list A) :
  filter f l = x :: rest ->
  exists before after,
    l = (before ++ x :: after)%list
    /\ f x = true
    /\ forall y, In y before -> f y = false.
Proof.
  induction l as [|a l IH]; cbn; [discriminate|].
  destruct (f a) eqn:E.
  - intros H. inversion H; subst. exists [], l.
    split; [reflexivity|]. split; [assumption | intros y []].
  - intros H. destruct (IH H) as (before & after & -> & Hx & Hb).
    exists (a :: before), after. split; [reflexivity|].
    split; [assumption|]. intros y [<-|Hy]; [assumption | now apply Hb].
Qed.

Lemma price_index_filter_In (index_df : list (Index.row float))
    (r : Index.row float) :
  In r (price_index_filter index_df) <->
  In r index_df /\ (1990 <= Index.Year r <= 2025)%Z.
Proof.
  unfold price_index_filter.
  rewrite filter_In, andb_true_iff, !Z.leb_le. tauto.
Qed.

(** X10. The price-index section fails, on the IndexError of [iloc[0]],
    exactly when the table has no row with a year from 1990 to 2025.
    Otherwise its current index is the value of the first row of the
    table, in file order, whose year is in that range. *)
Theorem X10_current_index_first_row_in_range {lib : Library}
    (index_df : list (Index.row float)) :
  (Page.price_index_section index_df = None
   <-> forall r, In r index_df -> ~ (1990 <= Index.Year r <= 2025)%Z)
  /\ forall fig metrics,
       Page.price_index_section index_df = Some (fig, metrics) ->
       exists before r after,
         index_df = (before ++ r :: after)%list
         /\ (1990 <= Index.Year r <= 2025)%Z
         /\ (forall r', In r' before ->
                        ~ (1990 <= Index.Year r' <= 2025)%Z)
         /\ Page.Current_Index metrics = Index.Value r.
Proof.
  unfold Page.price_index_section, create_price_index_chart, current_index.
  destruct (price_index_filter index_df) as [|r0 rows] eqn:E; cbn.
  - split; [|discriminate]. split; [|reflexivity].
    intros _ r Hr Hy.
    assert (Hin : In r (price_index_filter index_df))
      by (apply price_index_filter_In; tauto).
    rewrite E in Hin. destruct Hin.
  - split.
    + split; [discriminate|]. intros Hnone. exfalso.
      assert (Hin : In r0 (price_index_filter index_df))
        by (rewrite E; now left).
      apply price_index_filter_In in Hin. apply (Hnone r0); tauto.
    + intros fig metrics H. inversion H; subst. clear H. cbn.
      destruct (filter_head_split _ _ E)
        as (before & after & El & Hr0 & Hb).
      exists before, r0, after. split; [assumption|].
      apply andb_true_iff in Hr0. rewrite !Z.leb_le in Hr0.
      split; [tauto|]. split; [|reflexivity].
      intros r' Hr' Hy. specialize (Hb r' Hr').
      apply andb_false_iff in Hb. rewrite !Z.leb_gt in Hb. lia.
Qed.

(** X11. When the price-index section shows a current index that is a
    number, it lies between the lowest and the highest index shown, and
    these two are values of rows of the table with a year from 1990 to
    2025. *)
Theorem X11_current_between_lowest_and_highest {lib : Library}
    (index_df : list (Index.row float))
    (fig : figure (Index.row float)) (metrics : Page.index_metrics) :
  Page.price_index_section index_df = Some (fig, metrics) ->
  isna (Page.Current_Index metrics) = false ->
  (Page.Lowest_Index metrics <=? Page.Current_Index metrics)%float = true
  /\ (Page.Current_Index metrics <=? Page.Highest_Index metrics)%float = true
  /\ (exists r, In r index_df /\ (1990 <= Index.Year r <= 2025)%Z
                /\ Page.Lowest_Index metrics = Index.Value r)
  /\ (exists r, In r index_df /\ (1990 <= Index.Year r <= 2025)%Z
                /\ Page.Highest_Index metrics = Index.Value r).
Proof.
  unfold Page.price_index_section, create_price_index_chart, current_index.
  destruct (price_index_filter index_df) as [|r0 rows] eqn:E; cbn;
    [discriminate|].
  intros H. inversion H; subst. clear H. cbn. intros Hcur.
  unfold Page.min_index, Page.max_index.
  set (values := map (@Index.Value float) (r0 :: rows)).
  assert (Hc : In (Index.Value r0) (dropna values)).
  { apply ExtremeFacts.dropna_In. split; [now left | assumption]. }
  assert (Hne : dropna values <> []).
  { intros E0. rewrite E0 in Hc. destruct Hc. }
  destruct (@ExtremeFacts.fmin_spec values Hne) as [Hlo Hmin].
  destruct (@ExtremeFacts.fmax_spec values Hne) as [Hhi Hmax].
  assert (Hrow : forall v, In v (dropna values) ->
                 exists r, In r index_df /\ (1990 <= Index.Year r <= 2025)%Z
                           /\ v = Index.Value r).
  { intros v Hv. apply ExtremeFacts.dropna_In in Hv. destruct Hv as [Hv _].
    apply in_map_iff in Hv. destruct Hv as (r & <- & Hr).
    rewrite <- E in Hr. apply price_index_filter_In in Hr.
    exists r. tauto. }
  split; [now apply Hmin|]. split; [now apply Hmax|].
  split; now apply Hrow.
Qed.

(** X11 on the duplicate-period table: 100 lies between 100 and 102. *)
Lemma X11_current_between_witness :
  exists fig metrics,
    Page.price_index_section (lib := Samples.library) Samples.index_duplicate = Some (fig, metrics)
    /\ isna (Page.Current_Index metrics) = false
    /\ (Page.Lowest_Index metrics <=? Page.Current_Index metrics)%float = true
    /\ (Page.Current_Index metrics <=? Page.Highest_Index metrics)%float
       = true.
Proof.
  eexists. eexists.
  assert (H : Page.price_index_section (lib := Samples.library) Samples.index_duplicate
              = Some (_, _)) by reflexivity.
  assert (Hc : isna (Page.Current_Index
                       {| Page.Current_Index := 100;
                          Page.Average_Index := 101;
                          Page.Highest_Index := 102;
                          Page.Lowest_Index := 100 |}) = false)
    by reflexivity.
  split; [exact H|]. split; [exact Hc|].
  destruct (@X11_current_between_lowest_and_highest Samples.library _ _ _ H Hc)
    as (Hlo & Hhi & _).
  split; assumption.
Defined.

(** *** Selections and summaries together *)

Lemma entity_values_of_selection {lib : Library} (selected_states : list string)
    (year_range : Z * Z) (cropland_df : list (Cropland.row float))
    (e : string) :
  Contract.entity_values
    (map add_state_display
         (cropland_filter selected_states year_range cropland_df)) e
  = map (@Cropland.Value float)
        (filter (fun r =>
                   (isin (Cropland.State r) selected_states
                    && (fst year_range <=? Cropland.Year r)%Z
                    && (Cropland.Year r <=? snd year_range)%Z)
                   && (title (Cropland.State r) =? e))
                cropland_df).
Proof.
  unfold Contract.entity_values, cropland_filter.
  rewrite filter_map_commute, map_map, filter_filter. reflexivity.
Qed.

(** X9. A state's summary row does not depend on the other states
    selected with it, as long as none of them has the same display name:
    the row is the one the state gets when selected alone over the same
    year range. *)
Theorem X9_summary_row_alone_or_together {lib : Library}
    (cropland_df : list (Cropland.row float)) (selected_states : list string)
    (year_range : Z * Z) (s : string) (row : summary_row) :
  In s selected_states ->
  (forall s', In s' selected_states -> title s' = title s -> s' = s) ->
  (In (title s, row)
      (summary_stats
         (map add_state_display
              (cropland_filter selected_states year_range cropland_df)))
   <-> In (title s, row)
          (summary_stats
             (map add_state_display
                  (cropland_filter [s] year_range cropland_df)))).
Proof.
  intros Hs Hinj.
  assert (Hsel : forall r : Cropland.row float,
    title (Cropland.State r) = title s ->
    isin (Cropland.State r) selected_states = isin (Cropland.State r) [s]).
  { intros r Ht. apply eq_true_iff_eq. rewrite !isin_In. split.
    - intros Hr. left. symmetry. now apply Hinj.
    - intros [<-|[]]. assumption. }
  assert (Hvals :
    Contract.entity_values
      (map add_state_display
           (cropland_filter selected_states year_range cropland_df))
      (title s)
    = Contract.entity_values
        (map add_state_display (cropland_filter [s] year_range cropland_df))
        (title s)).
  { rewrite !entity_values_of_selection. f_equal. apply filter_ext.
    intros r. destruct (title (Cropland.State r) =? title s) eqn:Et;
      [|now rewrite !andb_false_r].
    apply String.eqb_eq in Et. now rewrite (Hsel r Et). }
  assert (Hkey :
    In (title s)
       (map CroplandView.State_Display
            (map add_state_display
                 (cropland_filter selected_states year_range cropland_df)))
    <-> In (title s)
           (map CroplandView.State_Display
                (map add_state_display
                     (cropland_filter [s] year_range cropland_df)))).
  { rewrite !map_map. cbn [CroplandView.State_Display add_state_display].
    rewrite !in_map_iff. split; intros (r & Et & Hr); exists r;
      (split; [assumption|]); apply cropland_filter_In;
      apply cropland_filter_In in Hr; destruct Hr as (Hr & Hst & Hy);
      (split; [assumption|]); (split; [|assumption]);
      apply isin_In; apply isin_In in Hst.
    - now rewrite <- (Hsel r Et).
    - now rewrite (Hsel r Et). }
  rewrite !summary_stats_In, Hvals, Hkey. reflexivity.
Qed.

(** X9 on the scenario table: Kentucky, alone or with Ohio. *)
Lemma X9_summary_row_witness :
  In "KENTUCKY" ["KENTUCKY"; "OHIO"]
  /\ (forall s', In s' ["KENTUCKY"; "OHIO"] ->
                 @title Samples.library s' = @title Samples.library "KENTUCKY" -> s' = "KENTUCKY")
  /\ (In ("Kentucky",
          {| Average := 150; Minimum := 100; Maximum := 200; Std_Dev := 71 |})
         (summary_stats (lib := Samples.library)
            (map (add_state_display (lib := Samples.library))
                 (cropland_filter ["KENTUCKY"; "OHIO"] (2020, 2021)%Z
                    Samples.cropland_scenario)))
      <-> In ("Kentucky",
              {| Average := 150; Minimum := 100; Maximum := 200;
                 Std_Dev := 71 |})
             (summary_stats (lib := Samples.library)
                (map (add_state_display (lib := Samples.library))
                     (cropland_filter ["KENTUCKY"] (2020, 2021)%Z
                        Samples.cropland_scenario)))).
Proof.
  assert (Hs : In "KENTUCKY" ["KENTUCKY"; "OHIO"]) by now left.
  assert (Hinj : forall s', In s' ["KENTUCKY"; "OHIO"] ->
                            @title Samples.library s' = @title Samples.library "KENTUCKY" -> s' = "KENTUCKY").
  { intros s' [<-|[<-|[]]] E; [reflexivity | discriminate E]. }
  split; [exact Hs|]. split; [exact Hinj|].
  exact (@X9_summary_row_alone_or_together Samples.library
           Samples.cropland_scenario
           ["KENTUCKY"; "OHIO"] (2020, 2021)%Z "KENTUCKY" _ Hs Hinj).
Defined.

(** X15. The selected states count as a set: two lists with the same
    members, in any order and with any repetition, select the same rows
    and lead to the same chart call result. *)
Theorem X15_selected_states_as_a_set {lib : Library}
    (cropland_df : list (Cropland.row float)) (states1 states2 : list string)
    (year_range : Z * Z) (chart_type : string) :
  (forall s, In s states1 <-> In s states2) ->
  cropland_filter states1 year_range cropland_df
  = cropland_filter states2 year_range cropland_df
  /\ create_cropland_chart cropland_df states1 year_range chart_type
     = create_cropland_chart cropland_df states2 year_range chart_type.
Proof.
  intros Hsame.
  assert (E : cropland_filter states1 year_range cropland_df
              = cropland_filter states2 year_range cropland_df).
  { unfold cropland_filter. apply filter_ext. intros r.
    assert (Hs : isin (Cropland.State r) states1
                 = isin (Cropland.State r) states2).
    { apply eq_true_iff_eq. rewrite !isin_In. apply Hsame. }
    now rewrite Hs. }
  split; [assumption|]. unfold create_cropland_chart. now rewrite E.
Qed.

(** X15 on the scenario table, with the two states in either order. *)
Lemma X15_selected_states_witness :
  (forall s, In s ["KENTUCKY"; "OHIO"] <-> In s ["OHIO"; "KENTUCKY"; "OHIO"])
  /\ cropland_filter ["KENTUCKY"; "OHIO"] (2020, 2021)%Z
       Samples.cropland_scenario
     = cropland_filter ["OHIO"; "KENTUCKY"; "OHIO"] (2020, 2021)%Z
         Samples.cropland_scenario.
Proof.
  assert (H : forall s, In s ["KENTUCKY"; "OHIO"]
                        <-> In s ["OHIO"; "KENTUCKY"; "OHIO"])
    by (intros s; cbn; tauto).
  split; [exact H|].
  exact (proj1 (@X15_selected_states_as_a_set Samples.library
                  Samples.cropland_scenario
                  _ _ (2020, 2021)%Z "Line Chart" H)).
Defined.
